(** * Weight importer of [sni.content.yaml]

    A shallow embedding of [server/sni/content/yaml.py]: the schema
    [SlugWeight]/[SlugWeights], the class [WeightImporter] and the entry
    point [run_weight_importer].

    The importer talks to a SQLAlchemy session, to the file system, to
    PyYAML and to pydantic.  The session is modelled as a pair of
    databases (the committed one and the one seen inside the open
    transaction); what the outside world answers during one call (the
    digest of the file, the clock, the result of opening and parsing the
    file, whether the commit goes through) is gathered in a record [Env].
    A method of the importer is a function in a small state-and-exception
    monad whose state also records the sequence of external calls made. *)

From Stdlib Require Import ZArith List String Bool Lia.
Import ListNotations.
Local Open Scope Z_scope.

(** ** Values produced by [yaml.safe_load] *)

(** Null, booleans, integers, strings, sequences and mappings.  A mapping
    is the Python [dict] that [safe_load] built, given as the list of its
    items.  Floats, timestamps and binaries are left out. *)
#[local] Unset Elimination Schemes.
Inductive yaml : Type :=
| YNull
| YBool (b : bool)
| YInt (z : Z)
| YStr (s : string)
| YSeq (l : list yaml)
| YMap (m : list (yaml * yaml)).
#[local] Set Elimination Schemes.

(** ** Rows of the store *)

(** Modelled from the spec: the class [sni.models.FileMetadata] is declared
    outside this file; its rows are the spec's FileRecord (path, content
    hash, last-modified timestamp), one per tracked file, with the columns
    the importer reads and writes. *)
Module FileMetadata.
Record t : Type := mk { filename : string; hash : string; last_modified : Z }.
End FileMetadata.

(** Modelled from the spec: the class [sni.models.YAMLFile] is declared
    outside this file; its rows are the spec's ImportedFile (owning
    FileRecord, content type).  The relationship [file_metadata] is kept as
    the file name of the owning [FileMetadata] row. *)
Module YAMLFile.
Record t : Type := mk { file_metadata : string; content_type : string }.
End YAMLFile.

(** Modelled from the spec: the entity classes ([self.model],
    [self.parent_model], subclasses of [sni.database.Base]) are declared
    outside this file; a row is the spec's TargetRow: primary key, slug,
    weight column and one further integer column that a subclass may
    designate through [parent_id]. *)
Module Entity.
Record t : Type := mk { id : Z; slug : string; weight : Z; fk : Z }.
End Entity.

(** The entity tables an importer class can name. *)
Inductive Table : Type := Items | Parents.

Record DB : Type := mkDB {
  file_metadata_table : list FileMetadata.t;
  yaml_file_table : list YAMLFile.t;
  items_table : list Entity.t;
  parents_table : list Entity.t
}.

Definition rows (db : DB) (t : Table) : list Entity.t :=
  match t with
  | Items => items_table db
  | Parents => parents_table db
  end.

Definition set_rows (db : DB) (t : Table) (l : list Entity.t) : DB :=
  match t with
  | Items => mkDB (file_metadata_table db) (yaml_file_table db) l (parents_table db)
  | Parents => mkDB (file_metadata_table db) (yaml_file_table db) (items_table db) l
  end.

(** A SQLAlchemy session: the database as committed, and as seen from
    inside the current transaction (pending and flushed changes
    included). *)
Record Session : Type := mkSession { committed : DB; pending : DB }.

(** ** The schema *)

(** [class SlugWeight(BaseModel)]: [slug: str], [weight: int = Field(ge=0)]. *)
Module SlugWeight.
Record t : Type := mk { slug : string; weight : Z }.
End SlugWeight.

(** Modelled from the spec: [IterableRootModel] is declared in
    [sni.shared.schemas], outside this file.  The validated value of
    [class SlugWeights(IterableRootModel)], [root: list[SlugWeight]], is
    taken to be the ordered sequence [root], and iterating it yields the
    entries of [root] in order. *)
Definition SlugWeights : Type := list SlugWeight.t.

(** The parameter dictionaries handed to the bulk UPDATE:
    [{"id": ..., "weight": ...}]. *)
Module Mapping.
Record t : Type := mk { id : Z; weight : Z }.
End Mapping.

(** ** The class attributes a subclass of [WeightImporter] provides *)

Record WeightImporterCls : Type := mkCls {
  content_type : string;
  file_path : string;
  model : Table;
  parent_model : option Table;
  (** [getattr(item, self.parent_id)], as an accessor *)
  parent_id : Entity.t -> Z
}.

(** The schemas an importer can carry; [WeightImporter] itself sets
    [schema = SlugWeights]. *)
Inductive Schema : Type := SlugWeightsSchema.

Definition schema : option Schema := Some SlugWeightsSchema.

(** ** The outside world during one call *)

Inductive load_result : Type :=
| Loaded (data : yaml)
| LoadError (e : string).

(** [get_file_hash] ([sni.utils.files]) is defined outside this file and is
    taken as it answers: the digest of the file at a path, or a failure
    (the spec: hashing a missing file is fatal). *)
Record Env : Type := mkEnv {
  (** [get_file_hash(file_path)]: [None] when it raises *)
  get_file_hash : string -> option string;
  (** [datetime.now()] *)
  datetime_now : Z;
  (** [open(file_path)] followed by [yaml.safe_load] *)
  safe_load : string -> load_result;
  (** the exception raised by [db_session.commit()], if any *)
  commit_error : option string
}.

(** ** Exceptions, console output and external calls *)

Inductive exn : Type :=
| ValidationError
| ValueError
| FileHashError.

Inductive output : Type :=
| ImportingWeights (m : Table)
| DONE
| ErrorLoadingYAML (e : string)
| ValidationErrorMsg
| ErrorCommitting (e : string).

Inductive event : Type :=
| Print (o : output)
| SelectFileMetadata (filename : string)
| GetFileHash (path : string)
| AddFileMetadata (r : FileMetadata.t)
| AddYAMLFile (r : YAMLFile.t)
| Flush
| Open (path : string)
| SelectAll (t : Table)
| ModelValidate (data : yaml)
| ExecuteUpdate (t : Table) (mappings : list Mapping.t)
| Commit
| Rollback.

(** ** The importer instance and the monad *)

Record Importer : Type := mkImporter {
  db_session : Session;
  file_updated : bool;
  file_metadata : option FileMetadata.t;
  yaml_file : option YAMLFile.t;
  items : list Entity.t
}.

(** [WeightImporter(db_session)]: [file_updated] starts at the class
    attribute [False]; the other attributes are not set yet. *)
Definition new_importer (s : Session) : Importer :=
  mkImporter s false None None [].

Record World : Type := mkWorld { self : Importer; trace : list event }.

Inductive Outcome (A : Type) : Type :=
| Returned (a : A)
| Raised (e : exn).
Arguments Returned {A} a.
Arguments Raised {A} e.

(** The session held by the importer of a world. *)
Definition session_of (w : World) : Session := db_session (self w).

Definition M (A : Type) : Type := World -> Outcome A * World.

Definition ret {A} (a : A) : M A := fun w => (Returned a, w).

Definition raise {A} (e : exn) : M A := fun w => (Raised e, w).

Definition bind {A B} (m : M A) (k : A -> M B) : M B :=
  fun w =>
    match m w with
    | (Returned a, w') => k a w'
    | (Raised e, w') => (Raised e, w')
    end.

Notation "x <- m ;; k" := (bind m (fun x => k))
  (at level 61, m at next level, right associativity).
Notation "m ;; k" := (bind m (fun _ => k))
  (at level 61, right associativity).

Definition emit (e : event) : M unit :=
  fun w => (Returned tt, mkWorld (self w) (trace w ++ [e])).

Definition print (o : output) : M unit := emit (Print o).

Definition get_self : M Importer := fun w => (Returned (self w), w).

Definition modify_self (f : Importer -> Importer) : M unit :=
  fun w => (Returned tt, mkWorld (f (self w)) (trace w)).

Definition set_db_session (s : Session) (i : Importer) : Importer :=
  mkImporter s (file_updated i) (file_metadata i) (yaml_file i) (items i).

Definition set_file_updated (b : bool) (i : Importer) : Importer :=
  mkImporter (db_session i) b (file_metadata i) (yaml_file i) (items i).

Definition set_file_metadata (r : FileMetadata.t) (i : Importer) : Importer :=
  mkImporter (db_session i) (file_updated i) (Some r) (yaml_file i) (items i).

Definition set_yaml_file (r : option YAMLFile.t) (i : Importer) : Importer :=
  mkImporter (db_session i) (file_updated i) (file_metadata i) r (items i).

Definition set_items (l : list Entity.t) (i : Importer) : Importer :=
  mkImporter (db_session i) (file_updated i) (file_metadata i) (yaml_file i) l.

(** A change made through the session touches the transaction's view
    only. *)
Definition modify_pending (f : DB -> DB) : M unit :=
  modify_self (fun i =>
    set_db_session (mkSession (committed (db_session i)) (f (pending (db_session i)))) i).

(** ** Validation against the schema (pydantic, lax mode) *)

Section Importer.

(** pydantic's reading of a string as an integer (for [weight: "5"]);
    its exact grammar is pydantic's own and stays a parameter. *)
Variable str_as_int : string -> option Z.

(** A [str] field accepts strings only. *)
Definition lax_str (v : yaml) : option string :=
  match v with
  | YStr s => Some s
  | _ => None
  end.

(** An [int] field accepts integers, booleans (as 0 and 1) and numeric
    strings. *)
Definition lax_int (v : yaml) : option Z :=
  match v with
  | YInt z => Some z
  | YBool b => Some (if b then 1 else 0)
  | YStr s => str_as_int s
  | _ => None
  end.

(** [d.get(field)] on a parsed mapping. *)
Fixpoint dict_get (field : string) (m : list (yaml * yaml)) : option yaml :=
  match m with
  | [] => None
  | (YStr k, v) :: m' => if String.eqb k field then Some v else dict_get field m'
  | _ :: m' => dict_get field m'
  end.

(** [SlugWeight.model_validate]: both fields are required, [slug] is a
    [str], [weight] an [int] with [ge=0]. *)
Definition SlugWeight_model_validate (v : yaml) : option SlugWeight.t :=
  match v with
  | YMap m =>
      match dict_get "slug" m, dict_get "weight" m with
      | Some s, Some w =>
          match lax_str s, lax_int w with
          | Some s', Some w' =>
              if 0 <=? w' then Some (SlugWeight.mk s' w') else None
          | _, _ => None
          end
      | _, _ => None
      end
  | _ => None
  end.

Fixpoint validate_all (l : list yaml) : option (list SlugWeight.t) :=
  match l with
  | [] => Some []
  | v :: l' =>
      match SlugWeight_model_validate v, validate_all l' with
      | Some d, Some ds => Some (d :: ds)
      | _, _ => None
      end
  end.

(** [SlugWeights.model_validate]: the root must be a list, each element a
    valid [SlugWeight]; [None] stands for [ValidationError]. *)
Definition SlugWeights_model_validate (data : yaml) : option SlugWeights :=
  match data with
  | YSeq l => validate_all l
  | _ => None
  end.

Definition model_validate (s : Schema) (data : yaml) : option SlugWeights :=
  match s with
  | SlugWeightsSchema => SlugWeights_model_validate data
  end.

(** ** The methods of [WeightImporter] *)

Variable cls : WeightImporterCls.
Variable env : Env.

(** [select(FileMetadata).filter_by(filename=...)] then [.first()] *)
Definition first_file_metadata (db : DB) (path : string) : option FileMetadata.t :=
  find (fun r => String.eqb (FileMetadata.filename r) path) (file_metadata_table db).

(** Assigning [hash] and [last_modified] on the row the query returned:
    the first row with that file name changes inside the transaction. *)
Fixpoint touch (path h : string) (ts : Z) (l : list FileMetadata.t)
  : list FileMetadata.t :=
  match l with
  | [] => []
  | r :: l' =>
      if String.eqb (FileMetadata.filename r) path
      then FileMetadata.mk (FileMetadata.filename r) h ts :: l'
      else r :: touch path h ts l'
  end.

Definition set_file_metadata_table (l : list FileMetadata.t) (db : DB) : DB :=
  mkDB l (yaml_file_table db) (items_table db) (parents_table db).

Definition set_yaml_file_table (l : list YAMLFile.t) (db : DB) : DB :=
  mkDB (file_metadata_table db) l (items_table db) (parents_table db).

(** [file_metadata.yaml_file] *)
Definition yaml_file_of (db : DB) (r : option FileMetadata.t) : option YAMLFile.t :=
  match r with
  | Some r =>
      find (fun y => String.eqb (YAMLFile.file_metadata y) (FileMetadata.filename r))
           (yaml_file_table db)
  | None => None
  end.

Definition call_get_file_hash (path : string) : M string :=
  emit (GetFileHash path) ;;
  match get_file_hash env path with
  | Some h => ret h
  | None => raise FileHashError
  end.

Definition handle_file_metadata (file_path : string) (force : bool) : M unit :=
  emit (SelectFileMetadata file_path) ;;
  i <- get_self ;;
  let existing_metadata := first_file_metadata (pending (db_session i)) file_path in
  current_hash <- call_get_file_hash file_path ;;
  let current_last_modified := datetime_now env in
  match existing_metadata with
  | Some existing =>
      (if negb (String.eqb (FileMetadata.hash existing) current_hash) || force
       then
         modify_pending (fun db =>
           set_file_metadata_table
             (touch file_path current_hash current_last_modified
                    (file_metadata_table db)) db) ;;
         modify_self (set_file_updated true)
       else ret tt) ;;
      i <- get_self ;;
      match first_file_metadata (pending (db_session i)) file_path with
      | Some r => modify_self (set_file_metadata r)
      | None => ret tt
      end
  | None =>
      let r := FileMetadata.mk file_path current_hash current_last_modified in
      modify_self (set_file_metadata r) ;;
      emit (AddFileMetadata r) ;;
      modify_pending (fun db =>
        set_file_metadata_table (file_metadata_table db ++ [r]) db) ;;
      let new_file := YAMLFile.mk file_path (content_type cls) in
      emit (AddYAMLFile new_file) ;;
      modify_pending (fun db =>
        set_yaml_file_table (yaml_file_table db ++ [new_file]) db) ;;
      emit Flush ;;
      modify_self (set_file_updated true)
  end ;;
  i <- get_self ;;
  modify_self (set_yaml_file (yaml_file_of (pending (db_session i)) (file_metadata i))).

Definition load_yaml_data (file_path : string) (force : bool) : M yaml :=
  handle_file_metadata file_path force ;;
  emit (Open file_path) ;;
  match safe_load env file_path with
  | Loaded data => ret data
  | LoadError e => print (ErrorLoadingYAML e) ;; ret (YSeq [])
  end.

(** [.unique()]: a row already met (same primary key, hence the same
    object of the identity map) is dropped. *)
Fixpoint unique (seen : list Z) (l : list Entity.t) : list Entity.t :=
  match l with
  | [] => []
  | r :: l' =>
      if existsb (Z.eqb (Entity.id r)) seen
      then unique seen l'
      else r :: unique (Entity.id r :: seen) l'
  end.

(** One parameter dictionary of the bulk UPDATE by primary key: the rows
    whose [id] is the dictionary's get its [weight]. *)
Definition apply_mapping (l : list Entity.t) (m : Mapping.t) : list Entity.t :=
  map (fun r =>
         if Entity.id r =? Mapping.id m
         then Entity.mk (Entity.id r) (Entity.slug r) (Mapping.weight m) (Entity.fk r)
         else r) l.

(** [db_session.execute(update(update_class), mappings)]: the
    dictionaries are applied in order; a dictionary whose [id] names no
    row, and an empty list of dictionaries, change nothing. *)
Definition bulk_update (mappings : list Mapping.t) (l : list Entity.t) : list Entity.t :=
  fold_left apply_mapping mappings l.

Definition execute_update (t : Table) (mappings : list Mapping.t) : M unit :=
  emit (ExecuteUpdate t mappings) ;;
  modify_pending (fun db => set_rows db t (bulk_update mappings (rows db t))).

(** [next((data for data in validated_data if data.slug == item.slug), None)] *)
Definition matching_data (validated_data : SlugWeights) (item : Entity.t)
  : option SlugWeight.t :=
  find (fun data => String.eqb (SlugWeight.slug data) (Entity.slug item)) validated_data.

(** The body of the [for item in items] loop of [process_data]. *)
Definition process_item (validated_data : SlugWeights)
           (mappings : list Mapping.t) (item : Entity.t) : list Mapping.t :=
  let weight :=
    match matching_data validated_data item with
    | Some data => SlugWeight.weight data
    | None => 0
    end in
  match parent_model cls with
  | Some _ => mappings ++ [Mapping.mk (parent_id cls item) weight]
  | None => mappings ++ [Mapping.mk (Entity.id item) weight]
  end.

Definition build_mappings (items : list Entity.t) (validated_data : SlugWeights)
  : list Mapping.t :=
  fold_left (process_item validated_data) items [].

Definition update_class : Table :=
  match parent_model cls with
  | Some p => p
  | None => model cls
  end.

Definition process_data (items : list Entity.t) (validated_data : SlugWeights) : M unit :=
  let mappings := build_mappings items validated_data in
  execute_update update_class mappings.

Definition validate_data (data : yaml) : M SlugWeights :=
  match schema with
  | None => raise ValueError
  | Some s =>
      emit (ModelValidate data) ;;
      match model_validate s data with
      | Some validated => ret validated
      | None => print ValidationErrorMsg ;; raise ValidationError
      end
  end.

Definition session_commit (s : Session) : Session := mkSession (pending s) (pending s).

Definition session_rollback (s : Session) : Session := mkSession (committed s) (committed s).

Definition commit_changes : M unit :=
  emit Commit ;;
  match commit_error env with
  | None => modify_self (fun i => set_db_session (session_commit (db_session i)) i)
  | Some e =>
      print (ErrorCommitting e) ;;
      emit Rollback ;;
      modify_self (fun i => set_db_session (session_rollback (db_session i)) i)
  end.

Definition import_data (force : bool) : M unit :=
  print (ImportingWeights (model cls)) ;;
  yaml_data <- load_yaml_data (file_path cls) force ;;
  i <- get_self ;;
  (if file_updated i || force
   then
     emit (SelectAll (model cls)) ;;
     i <- get_self ;;
     let items := unique [] (rows (pending (db_session i)) (model cls)) in
     modify_self (set_items items) ;;
     validated_data <- validate_data yaml_data ;;
     process_data items validated_data ;;
     commit_changes
   else ret tt) ;;
  print DONE.

(** [any(force_conditions)] *)
Definition any (l : list bool) : bool := existsb (fun b => b) l.

(** What a caller of [run_weight_importer] can observe: the value
    returned or the exception raised, the session afterwards and the
    external calls made. *)
Record Run : Type := mkRun {
  result : Outcome bool;
  session_after : Session;
  calls : list event
}.

Definition run_weight_importer (db_session : Session) (force : bool)
           (force_conditions : list bool) : Run :=
  let importer := new_importer db_session in
  match import_data (force || any force_conditions) (mkWorld importer []) with
  | (Returned _, w) =>
      mkRun (Returned (file_updated (self w))) (session_of w) (trace w)
  | (Raised e, w) =>
      mkRun (Raised e) (session_of w) (trace w)
  end.

End Importer.

(** ** Vocabulary of the statements *)

(** The key an update record carries for a row: the row's own [id], or the
    attribute named by [parent_id] when weights are stored on a parent. *)
Definition key (cls : WeightImporterCls) (item : Entity.t) : Z :=
  match parent_model cls with
  | Some _ => parent_id cls item
  | None => Entity.id item
  end.

(** [d] is the first entry of [validated_data], in input order, whose slug
    is [s]. *)
Definition first_with_slug (s : string) (validated_data : SlugWeights)
           (d : SlugWeight.t) : Prop :=
  exists before after,
    validated_data = before ++ d :: after /\
    SlugWeight.slug d = s /\
    (forall d', In d' before -> SlugWeight.slug d' <> s).

Definition is_update (e : event) : bool :=
  match e with
  | ExecuteUpdate _ _ => true
  | _ => false
  end.

Definition is_commit (e : event) : bool :=
  match e with
  | Commit => true
  | _ => false
  end.

(** The calls that create a tracked-file record. *)
Definition is_add (e : event) : bool :=
  match e with
  | AddFileMetadata _ | AddYAMLFile _ => true
  | _ => false
  end.

(** Does a sequence of external calls contain a bulk UPDATE, a commit? *)
Definition issues_update (t : list event) : bool := existsb is_update t.

Definition attempts_commit (t : list event) : bool := existsb is_commit t.

(** Does some row of [items] carry the slug of the entry [d]? *)
Definition matches_some_row (items : list Entity.t) (d : SlugWeight.t) : bool :=
  existsb (fun item => String.eqb (SlugWeight.slug d) (Entity.slug item)) items.

(** The update record built for one row. *)
Definition mapping_of (cls : WeightImporterCls) (validated_data : SlugWeights)
           (item : Entity.t) : Mapping.t :=
  Mapping.mk (key cls item)
             (match matching_data validated_data item with
              | Some data => SlugWeight.weight data
              | None => 0
              end).

(** What the bulk UPDATE does to a single row. *)
Definition update_row (r : Entity.t) (m : Mapping.t) : Entity.t :=
  if Entity.id r =? Mapping.id m
  then Entity.mk (Entity.id r) (Entity.slug r) (Mapping.weight m) (Entity.fk r)
  else r.

(** What [load_yaml_data] hands back once the fingerprint is reconciled:
    the parsed document, or the empty sequence after a failure. *)
Definition loaded_data (env : Env) (path : string) : yaml :=
  match safe_load env path with
  | Loaded data => data
  | LoadError _ => YSeq []
  end.

(** The [changed] flag of the reconcile step: a record is created, or the
    stored hash differs from the current one, or the call is forced. *)
Definition reconcile_changed (db : DB) (path h : string) (force : bool) : bool :=
  match first_file_metadata db path with
  | Some existing => negb (String.eqb (FileMetadata.hash existing) h) || force
  | None => true
  end.

(** The transaction's view once the fingerprint is reconciled. *)
Definition reconciled_db (cls : WeightImporterCls) (env : Env) (path h : string)
           (force : bool) (db : DB) : DB :=
  match first_file_metadata db path with
  | Some existing =>
      if negb (String.eqb (FileMetadata.hash existing) h) || force
      then set_file_metadata_table
             (touch path h (datetime_now env) (file_metadata_table db)) db
      else db
  | None =>
      set_yaml_file_table
        (yaml_file_table db ++ [YAMLFile.mk path (content_type cls)])
        (set_file_metadata_table
           (file_metadata_table db ++ [FileMetadata.mk path h (datetime_now env)]) db)
  end.

(** The rows the importer loads: [self.items]. *)
Definition loaded_items (cls : WeightImporterCls) (db : DB) : list Entity.t :=
  unique [] (rows db (model cls)).

(** The transaction's view once the weights are applied. *)
Definition applied_db (cls : WeightImporterCls) (validated_data : SlugWeights)
           (db : DB) : DB :=
  set_rows db (update_class cls)
           (bulk_update (build_mappings cls (loaded_items cls db) validated_data)
                        (rows db (update_class cls))).

(** The external calls of the reconcile step. *)
Definition reconcile_calls (cls : WeightImporterCls) (env : Env) (db : DB)
           (path : string) : list event :=
  [SelectFileMetadata path; GetFileHash path] ++
  match get_file_hash env path, first_file_metadata db path with
  | Some h, None =>
      [AddFileMetadata (FileMetadata.mk path h (datetime_now env));
       AddYAMLFile (YAMLFile.mk path (content_type cls));
       Flush]
  | _, _ => []
  end.

(** The external calls of opening and parsing the file. *)
Definition load_calls (env : Env) (path : string) : list event :=
  Open path ::
  match safe_load env path with
  | Loaded _ => []
  | LoadError e => [Print (ErrorLoadingYAML e)]
  end.

(** The external calls of the commit step. *)
Definition commit_calls (env : Env) : list event :=
  Commit ::
  match commit_error env with
  | None => []
  | Some e => [Print (ErrorCommitting e); Rollback]
  end.

(** The external calls behind the gate [file_updated or force]. *)
Definition gated_calls (str_as_int : string -> option Z) (cls : WeightImporterCls)
           (env : Env) (db : DB) (data : yaml) : list event :=
  [SelectAll (model cls); ModelValidate data] ++
  match SlugWeights_model_validate str_as_int data with
  | None => [Print ValidationErrorMsg]
  | Some validated =>
      [ExecuteUpdate (update_class cls)
                     (build_mappings cls (loaded_items cls db) validated)]
      ++ commit_calls env ++ [Print DONE]
  end.

(** The external calls of one [import_data(force)], in order. *)
Definition import_calls (str_as_int : string -> option Z) (cls : WeightImporterCls)
           (env : Env) (s : Session) (force : bool) : list event :=
  let path := file_path cls in
  Print (ImportingWeights (model cls)) ::
  reconcile_calls cls env (pending s) path ++
  match get_file_hash env path with
  | None => []
  | Some h =>
      load_calls env path ++
      if reconcile_changed (pending s) path h force || force
      then gated_calls str_as_int cls env (pending s) (loaded_data env path)
      else [Print DONE]
  end.

(** The session one [import_data(force)] leaves behind. *)
Definition import_session (str_as_int : string -> option Z) (cls : WeightImporterCls)
           (env : Env) (s : Session) (force : bool) : Session :=
  let path := file_path cls in
  match get_file_hash env path with
  | None => s
  | Some h =>
      let s1 := mkSession (committed s) (reconciled_db cls env path h force (pending s)) in
      if reconcile_changed (pending s) path h force || force
      then
        match SlugWeights_model_validate str_as_int (loaded_data env path) with
        | None => s1
        | Some validated =>
            let s2 := mkSession (committed s1) (applied_db cls validated (pending s1)) in
            match commit_error env with
            | None => session_commit s2
            | Some _ => session_rollback s2
            end
        end
      else s1
  end.

(** What [run_weight_importer] returns or raises. *)
Definition import_result (str_as_int : string -> option Z) (cls : WeightImporterCls)
           (env : Env) (s : Session) (force : bool) : Outcome bool :=
  let path := file_path cls in
  match get_file_hash env path with
  | None => Raised FileHashError
  | Some h =>
      let changed := reconcile_changed (pending s) path h force in
      if changed || force
      then
        match SlugWeights_model_validate str_as_int (loaded_data env path) with
        | None => Raised ValidationError
        | Some _ => Returned changed
        end
      else Returned changed
  end.

(** Two databases hold the same tracked files: the same file names in the
    same order, and the same [YAMLFile] rows. *)
Definition same_files (db db' : DB) : Prop :=
  map FileMetadata.filename (file_metadata_table db)
  = map FileMetadata.filename (file_metadata_table db') /\
  yaml_file_table db = yaml_file_table db'.

(** [db'] holds the tracked files of [db] and one record more for [path]. *)
Definition one_more_file (cls : WeightImporterCls) (env : Env) (path h : string)
           (db db' : DB) : Prop :=
  file_metadata_table db'
  = file_metadata_table db ++ [FileMetadata.mk path h (datetime_now env)] /\
  yaml_file_table db'
  = yaml_file_table db ++ [YAMLFile.mk path (content_type cls)].

(** The environment of a call whose commit goes through, or fails. *)
Definition with_commit_error (env : Env) (e : option string) : Env :=
  mkEnv (get_file_hash env) (datetime_now env) (safe_load env) e.

(** ** Sample data *)

Local Open Scope string_scope.

(** An importer class whose rows carry their own weight. *)
Definition ex_cls : WeightImporterCls :=
  mkCls "weights" "weights.yaml" Items None Entity.fk.

(** The mapping [{slug: s, weight: w}]. *)
Definition entry (s : string) (w : Z) : yaml :=
  YMap [(YStr "slug", YStr s); (YStr "weight", YInt w)].

(** The input [[{slug: "a", weight: 5}, {slug: "b", weight: 3}]]. *)
Definition ex_input : yaml := YSeq [entry "a" 5; entry "b" 3].

Definition ex_validated : SlugWeights :=
  [SlugWeight.mk "a" 5; SlugWeight.mk "b" 3].

Definition ex_rows : list Entity.t :=
  [Entity.mk 1 "a" 9 0; Entity.mk 2 "b" 9 0; Entity.mk 3 "c" 9 0].

(** A store that has never seen the file. *)
Definition ex_fresh_db : DB := mkDB [] [] ex_rows [].

Definition ex_fresh : Session := mkSession ex_fresh_db ex_fresh_db.

(** A store that tracks the file under the hash ["h1"]. *)
Definition ex_tracked_db : DB :=
  mkDB [FileMetadata.mk "weights.yaml" "h1" 50]
       [YAMLFile.mk "weights.yaml" "weights"] ex_rows [].

Definition ex_tracked : Session := mkSession ex_tracked_db ex_tracked_db.

(** The file hashes to ["h1"] and parses to [ex_input]; the commit goes
    through. *)
Definition ex_env : Env :=
  mkEnv (fun _ => Some "h1") 100 (fun _ => Loaded ex_input) None.

(** The same file, on a day the commit fails. *)
Definition ex_failing_commit_env : Env := with_commit_error ex_env (Some "database is locked").

(** A file that holds [[{slug: "a", weight: -1}]]. *)
Definition ex_negative_env : Env :=
  mkEnv (fun _ => Some "h2") 100 (fun _ => Loaded (YSeq [entry "a" (-1)])) None.

(** A file that cannot be parsed. *)
Definition ex_unparseable_env : Env :=
  mkEnv (fun _ => Some "h2") 100 (fun _ => LoadError "mapping values are not allowed here") None.

(** No string reads as an integer. *)
Definition no_str_as_int (_ : string) : option Z := None.

(** The first import on the fresh store, and a second one right after. *)
Definition ex_first_run : Run :=
  run_weight_importer no_str_as_int ex_cls ex_env ex_fresh false [].


(** An unforced and a forced import of the tracked, unchanged file. *)
Definition ex_skipped_run : Run :=
  run_weight_importer no_str_as_int ex_cls ex_env ex_tracked false [].

Definition ex_forced_run : Run :=
  run_weight_importer no_str_as_int ex_cls ex_env ex_tracked true [].

(** Imports of the file with a negative weight and of the unparseable
    file, over the tracked store. *)
Definition ex_negative_run : Run :=
  run_weight_importer no_str_as_int ex_cls ex_negative_env ex_tracked false [].

Definition ex_unparseable_run : Run :=
  run_weight_importer no_str_as_int ex_cls ex_unparseable_env ex_tracked false [].

(** The first import on the fresh store when the commit fails, and the
    import that follows it. *)
Definition ex_failed_commit_run : Run :=
  run_weight_importer no_str_as_int ex_cls ex_failing_commit_env ex_fresh false [].


Local Close Scope string_scope.

(** ** Further vocabulary and sample data *)

(** [process_item_data]: the hook of the base class hands its argument
    back. *)
Definition process_item_data (item_data : yaml) : yaml := item_data.

(** A row with its weight column replaced. *)
Definition set_weight (r : Entity.t) (w : Z) : Entity.t :=
  Entity.mk (Entity.id r) (Entity.slug r) w (Entity.fk r).

(** Every weight of every entity table is non-negative. *)
Definition nonneg_weights (db : DB) : Prop :=
  forall t row, In row (rows db t) -> 0 <= Entity.weight row.

(** An importer class whose weights live on a parent row, reached through
    the column [fk]. *)
Definition ex_parent_cls : WeightImporterCls :=
  mkCls "weights" "weights.yaml" Items (Some Parents) Entity.fk.

(** Two rows (say, two translations) of the same parent 7. *)
Definition ex_translations : list Entity.t :=
  [Entity.mk 1 "a" 0 7; Entity.mk 2 "b" 0 7].

Definition ex_parent_db : DB :=
  mkDB [] [] ex_translations [Entity.mk 7 "doc" 9 0].

Definition ex_parent_session : Session := mkSession ex_parent_db ex_parent_db.

(** An empty file: [yaml.safe_load] returns [None]. *)
Definition ex_empty_file_env : Env :=
  mkEnv (fun _ => Some "h3"%string) 100 (fun _ => Loaded YNull) None.

(** A file that cannot be hashed. *)
Definition ex_missing_file_env : Env :=
  mkEnv (fun _ => None) 100 (fun _ => LoadError "No such file or directory"%string) None.

(** The importer instance after a first import on the fresh store. *)
Definition ex_importer_after_first_import : World :=
  snd (import_data no_str_as_int ex_cls ex_env false (mkWorld (new_importer ex_fresh) [])).

(** The world of an importer created over a session. *)
Definition ex_world (s : Session) : World := mkWorld (new_importer s) [].

(** * Properties *)

(** ** The weight applier *)

Section Applier.

Variable cls : WeightImporterCls.

Lemma process_item_snoc validated_data mappings item :
  process_item cls validated_data mappings item
  = mappings ++ [mapping_of cls validated_data item].
Proof.
  unfold process_item, mapping_of, key.
  destruct (parent_model cls); reflexivity.
Qed.

Lemma fold_process_item validated_data items :
  forall acc,
    fold_left (process_item cls validated_data) items acc
    = acc ++ map (mapping_of cls validated_data) items.
Proof.
  induction items as [|item items IH]; intros acc; simpl.
  - now rewrite app_nil_r.
  - rewrite IH, process_item_snoc, <- app_assoc. reflexivity.
Qed.

(** The loop of [process_data] is a [map] over the rows. *)
Lemma build_mappings_map items validated_data :
  build_mappings cls items validated_data = map (mapping_of cls validated_data) items.
Proof.
  unfold build_mappings. now rewrite fold_process_item.
Qed.

Lemma matching_data_first validated_data item d :
  first_with_slug (Entity.slug item) validated_data d ->
  matching_data validated_data item = Some d.
Proof.
  intros (before & after & -> & Hd & Hbefore).
  unfold matching_data.
  induction before as [|d' before IH]; simpl.
  - rewrite Hd, String.eqb_refl. reflexivity.
  - destruct (String.eqb_spec (SlugWeight.slug d') (Entity.slug item)) as [E|_].
    + exfalso. apply (Hbefore d'); [now left | exact E].
    + apply IH. intros d'' Hin. apply Hbefore. now right.
Qed.

Lemma matching_data_none validated_data item :
  (forall d, In d validated_data -> SlugWeight.slug d <> Entity.slug item) ->
  matching_data validated_data item = None.
Proof.
  intros Hnone. unfold matching_data.
  induction validated_data as [|d l IH]; simpl; [reflexivity|].
  destruct (String.eqb_spec (SlugWeight.slug d) (Entity.slug item)) as [E|_].
  - exfalso. apply (Hnone d); [now left | exact E].
  - apply IH. intros d' Hin. apply Hnone. now right.
Qed.

(** Entries that match no row are never the match of a row. *)
Lemma matching_data_filter items validated_data item :
  In item items ->
  matching_data (filter (matches_some_row items) validated_data) item
  = matching_data validated_data item.
Proof.
  intros Hin. unfold matching_data.
  induction validated_data as [|d l IH]; simpl; [reflexivity|].
  destruct (String.eqb_spec (SlugWeight.slug d) (Entity.slug item)) as [E|NE].
  - assert (Hm : matches_some_row items d = true).
    { unfold matches_some_row. apply existsb_exists.
      exists item. split; [exact Hin|]. now apply String.eqb_eq. }
    rewrite Hm. simpl. rewrite E, String.eqb_refl. reflexivity.
  - destruct (matches_some_row items d); simpl; [|exact IH].
    destruct (String.eqb_spec (SlugWeight.slug d) (Entity.slug item)); [contradiction|].
    exact IH.
Qed.

Lemma build_mappings_filter items validated_data :
  build_mappings cls items (filter (matches_some_row items) validated_data)
  = build_mappings cls items validated_data.
Proof.
  rewrite !build_mappings_map. apply map_ext_in.
  intros item Hin. unfold mapping_of.
  now rewrite matching_data_filter.
Qed.

End Applier.

(** ** The bulk UPDATE, row by row *)

Lemma apply_mapping_map l m :
  apply_mapping l m = map (fun r => update_row r m) l.
Proof. reflexivity. Qed.

Lemma bulk_update_map mappings :
  forall l, bulk_update mappings l = map (fun r => fold_left update_row mappings r) l.
Proof.
  unfold bulk_update.
  induction mappings as [|m mappings IH]; intros l; simpl.
  - now rewrite map_id.
  - rewrite IH, apply_mapping_map, map_map. reflexivity.
Qed.

Lemma update_row_id r m : Entity.id (update_row r m) = Entity.id r.
Proof. unfold update_row. now destruct (Entity.id r =? Mapping.id m). Qed.

Lemma fold_update_row_id mappings :
  forall r, Entity.id (fold_left update_row mappings r) = Entity.id r.
Proof.
  induction mappings as [|m mappings IH]; intros r; simpl; [reflexivity|].
  now rewrite IH, update_row_id.
Qed.

(** A row no dictionary names keeps its weight. *)
Lemma fold_update_row_other mappings :
  forall r, ~ In (Entity.id r) (map Mapping.id mappings) ->
            fold_left update_row mappings r = r.
Proof.
  induction mappings as [|m mappings IH]; intros r Hnot; simpl; [reflexivity|].
  simpl in Hnot.
  assert (E : update_row r m = r).
  { unfold update_row. destruct (Z.eqb_spec (Entity.id r) (Mapping.id m)) as [E|NE];
      [exfalso; apply Hnot; left; now symmetry | reflexivity]. }
  rewrite E. apply IH. intros Hin. apply Hnot. now right.
Qed.

(** When no two dictionaries name the same row, a named row ends with the
    weight of its dictionary. *)
Lemma fold_update_row_weight mappings :
  NoDup (map Mapping.id mappings) ->
  forall m r, In m mappings -> Entity.id r = Mapping.id m ->
              Entity.weight (fold_left update_row mappings r) = Mapping.weight m.
Proof.
  induction mappings as [|m0 mappings IH]; intros Hnd m r Hin Hid; [destruct Hin|].
  simpl in Hnd. inversion Hnd as [|? ? Hfresh Hnd']; subst.
  simpl. destruct Hin as [->|Hin].
  - rewrite fold_update_row_other.
    + unfold update_row. rewrite Hid, Z.eqb_refl. reflexivity.
    + now rewrite update_row_id, Hid.
  - apply IH; [exact Hnd' | exact Hin | now rewrite update_row_id].
Qed.

(** When every dictionary carries weight [0], a named row ends at [0]. *)
Lemma fold_update_row_zero mappings :
  (forall m, In m mappings -> Mapping.weight m = 0) ->
  forall r, In (Entity.id r) (map Mapping.id mappings) \/ Entity.weight r = 0 ->
            Entity.weight (fold_left update_row mappings r) = 0.
Proof.
  induction mappings as [|m mappings IH]; intros Hzero r Hr; simpl.
  - destruct Hr as [[]|Hr]; exact Hr.
  - apply IH; [intros m' Hin; apply Hzero; now right|].
    unfold update_row.
    destruct (Z.eqb_spec (Entity.id r) (Mapping.id m)) as [E|NE]; simpl.
    + right. apply Hzero. now left.
    + destruct Hr as [[E|Hin]|Hr]; [congruence | now left | now right].
Qed.

(** ** The rows kept by [unique] *)

Lemma unique_incl l :
  forall seen r, In r (unique seen l) -> In r l.
Proof.
  induction l as [|r0 l IH]; intros seen r Hin; simpl in *; [exact Hin|].
  destruct (existsb (Z.eqb (Entity.id r0)) seen).
  - right. eapply IH, Hin.
  - destruct Hin as [->|Hin]; [now left | right; eapply IH, Hin].
Qed.

Lemma unique_ids l :
  forall seen r, In r l ->
                 In (Entity.id r) seen \/ In (Entity.id r) (map Entity.id (unique seen l)).
Proof.
  induction l as [|r0 l IH]; intros seen r Hin; [destruct Hin|].
  simpl. destruct (existsb (Z.eqb (Entity.id r0)) seen) eqn:Hseen.
  - destruct Hin as [->|Hin]; [|now apply IH].
    left. apply existsb_exists in Hseen. destruct Hseen as (z & Hz & Ez).
    apply Z.eqb_eq in Ez. now rewrite Ez.
  - destruct Hin as [->|Hin]; [right; now left|].
    destruct (IH (Entity.id r0 :: seen) r Hin) as [[E|Hs]|Hu].
    + right. left. exact E.
    + now left.
    + right. now right.
Qed.

(** Every primary key of the table is the key of a loaded row. *)
Lemma unique_keeps_ids l r :
  In r l -> In (Entity.id r) (map Entity.id (unique [] l)).
Proof.
  intros Hin. destruct (unique_ids l [] r Hin) as [[]|H]; exact H.
Qed.

(** ** The tracked-file tables *)

Lemma touch_filenames path h ts l :
  map FileMetadata.filename (touch path h ts l) = map FileMetadata.filename l.
Proof.
  induction l as [|r l IH]; simpl; [reflexivity|].
  destruct (FileMetadata.filename r =? path)%string; simpl; [reflexivity|].
  now rewrite IH.
Qed.

Lemma find_touch path h ts l r :
  find (fun r => (FileMetadata.filename r =? path)%string) l = Some r ->
  find (fun r => (FileMetadata.filename r =? path)%string) (touch path h ts l)
  = Some (FileMetadata.mk (FileMetadata.filename r) h ts).
Proof.
  induction l as [|r0 l IH]; simpl; [discriminate|].
  destruct (FileMetadata.filename r0 =? path)%string eqn:E; simpl.
  - intros [= ->]. now rewrite E.
  - rewrite E. exact IH.
Qed.

Lemma find_snoc_new path h ts l :
  find (fun r => (FileMetadata.filename r =? path)%string) l = None ->
  find (fun r => (FileMetadata.filename r =? path)%string)
       (l ++ [FileMetadata.mk path h ts])
  = Some (FileMetadata.mk path h ts).
Proof.
  induction l as [|r0 l IH]; simpl.
  - intros _. now rewrite String.eqb_refl.
  - destruct (FileMetadata.filename r0 =? path)%string; [discriminate | exact IH].
Qed.

(** ** One call of the importer, step by step *)

Ltac unfold_monad :=
  unfold print, emit, modify_pending, modify_self, get_self, bind, ret, raise in *.

Section Run.

Variable str_as_int : string -> option Z.
Variable cls : WeightImporterCls.
Variable env : Env.

(** A forced reconcile always reports a change. *)
Lemma reconcile_changed_force db path h :
  reconcile_changed db path h true = true.
Proof.
  unfold reconcile_changed.
  destruct (first_file_metadata db path); [apply orb_true_r | reflexivity].
Qed.

(** Reconciling the fingerprint leaves the entity tables alone. *)
Lemma rows_reconciled_db path h force db t :
  rows (reconciled_db cls env path h force db) t = rows db t.
Proof.
  unfold reconciled_db.
  destruct (first_file_metadata db path) as [existing|].
  - destruct (negb (FileMetadata.hash existing =? h)%string || force);
      destruct t; reflexivity.
  - destruct t; reflexivity.
Qed.

(** The reconcile step: it raises when the file cannot be hashed, and
    otherwise leaves the transaction in [reconciled_db] and has
    [file_updated] set when [reconcile_changed] says so. *)
Lemma handle_file_metadata_run path force w :
  exists fm yf,
    handle_file_metadata cls env path force w
    = match get_file_hash env path with
      | None =>
          (Raised FileHashError,
           mkWorld (self w) (trace w ++ reconcile_calls cls env (pending (session_of w)) path))
      | Some h =>
          (Returned tt,
           mkWorld
             (mkImporter
                (mkSession (committed (session_of w))
                           (reconciled_db cls env path h force (pending (session_of w))))
                (if reconcile_changed (pending (session_of w)) path h force
                 then true else file_updated (self w))
                fm yf (items (self w)))
             (trace w ++ reconcile_calls cls env (pending (session_of w)) path))
      end.
Proof.
  destruct w as [[[c p] fu fm yf its] tr].
  unfold handle_file_metadata, call_get_file_hash, reconcile_calls,
    reconcile_changed, reconciled_db, session_of.
  unfold_monad. cbn.
  destruct (get_file_hash env path) as [h|]; cbn.
  2:{ exists fm, yf. now rewrite <- app_assoc. }
  destruct (first_file_metadata p path) as [existing|] eqn:Hfind; cbn.
  - destruct (negb (FileMetadata.hash existing =? h)%string || force); cbn.
    + destruct (find _ (touch _ _ _ _)); cbn; eexists; eexists;
        rewrite <- ?app_assoc; reflexivity.
    + rewrite Hfind. cbn. eexists; eexists. rewrite <- ?app_assoc. reflexivity.
  - eexists; eexists. rewrite <- ?app_assoc. reflexivity.
Qed.

(** One call of [run_weight_importer], told in one piece: what it
    returns, the session it leaves and the external calls it makes. *)
Lemma run_weight_importer_unfold s force force_conditions :
  run_weight_importer str_as_int cls env s force force_conditions
  = mkRun (import_result str_as_int cls env s (force || any force_conditions))
          (import_session str_as_int cls env s (force || any force_conditions))
          (import_calls str_as_int cls env s (force || any force_conditions)).
Proof.
  unfold run_weight_importer.
  set (f := force || any force_conditions). clearbody f.
  destruct (handle_file_metadata_run (file_path cls) f
              (mkWorld (new_importer s) [Print (ImportingWeights (model cls))]))
    as (fm & yf & E).
  unfold import_data, load_yaml_data, import_result,
    import_session, import_calls.
  unfold_monad. cbn -[handle_file_metadata reconcile_calls].
  rewrite E. clear E. unfold session_of. cbn -[reconcile_calls].
  destruct (get_file_hash env (file_path cls)) as [h|] eqn:Hh;
    cbn -[reconcile_calls]; [|now rewrite app_nil_r].
  unfold load_calls, loaded_data, gated_calls, commit_calls.
  assert (Hgate : (if reconcile_changed (pending s) (file_path cls) h f
                   then true else false) || f
                  = reconcile_changed (pending s) (file_path cls) h f || f)
    by now destruct (reconcile_changed (pending s) (file_path cls) h f).
  destruct (safe_load env (file_path cls)) as [data|e];
    cbn -[reconcile_calls]; rewrite Hgate; clear Hgate;
    (destruct f;
     [ rewrite reconcile_changed_force
     | destruct (reconcile_changed (pending s) (file_path cls) h false) ]);
    cbn -[reconcile_calls].
  all: try (rewrite <- ?app_assoc, ?app_nil_r; reflexivity).
  all: unfold validate_data, process_data, execute_update, commit_changes;
    unfold_monad; cbn -[reconcile_calls].
  all: match goal with
       | |- context [validate_all ?l] => destruct (validate_all l) eqn:Hv
       | |- context [SlugWeights_model_validate ?f ?d] =>
           destruct (SlugWeights_model_validate f d) eqn:Hv
       | _ => idtac
       end; cbn -[reconcile_calls].
  all: unfold applied_db, loaded_items; rewrite ?rows_reconciled_db.
  all: try (rewrite <- ?app_assoc, ?app_nil_r; reflexivity).
  all: destruct (commit_error env); cbn -[reconcile_calls];
    rewrite <- ?app_assoc, ?app_nil_r; reflexivity.
Qed.

(** Applying the weights leaves the tracked-file tables alone. *)
Lemma file_tables_applied_db validated db :
  file_metadata_table (applied_db cls validated db) = file_metadata_table db /\
  yaml_file_table (applied_db cls validated db) = yaml_file_table db.
Proof. unfold applied_db. destruct (update_class cls); split; reflexivity. Qed.

Lemma first_file_metadata_applied_db validated db path :
  first_file_metadata (applied_db cls validated db) path = first_file_metadata db path.
Proof.
  unfold first_file_metadata.
  now rewrite (proj1 (file_tables_applied_db validated db)).
Qed.

Lemma rows_applied_db validated db :
  rows (applied_db cls validated db) (update_class cls)
  = bulk_update (build_mappings cls (loaded_items cls db) validated)
                (rows db (update_class cls)).
Proof. unfold applied_db. destruct (update_class cls); reflexivity. Qed.

(** Once reconciled, the transaction holds a record for the path, and
    its hash is the current one. *)
Lemma reconciled_db_record path h force db :
  exists r,
    first_file_metadata (reconciled_db cls env path h force db) path = Some r /\
    FileMetadata.hash r = h.
Proof.
  unfold reconciled_db.
  destruct (first_file_metadata db path) as [existing|] eqn:Hfind.
  - destruct (negb (FileMetadata.hash existing =? h)%string || force) eqn:Hc.
    + exists (FileMetadata.mk (FileMetadata.filename existing) h (datetime_now env)).
      split; [|reflexivity].
      unfold first_file_metadata in *. cbn.
      rewrite (find_touch _ _ _ _ _ Hfind). reflexivity.
    + exists existing. split; [exact Hfind|].
      apply orb_false_elim in Hc. destruct Hc as [Hc _].
      apply negb_false_iff in Hc. now apply String.eqb_eq.
  - exists (FileMetadata.mk path h (datetime_now env)).
    split; [|reflexivity].
    unfold first_file_metadata in *. cbn.
    rewrite (find_snoc_new _ _ _ _ Hfind). reflexivity.
Qed.

(** A record with the current hash makes an unforced reconcile a
    no-op. *)
Lemma reconcile_unchanged env' path db r :
  first_file_metadata db path = Some r ->
  reconcile_changed db path (FileMetadata.hash r) false = false /\
  reconciled_db cls env' path (FileMetadata.hash r) false db = db.
Proof.
  intros Hfind. unfold reconcile_changed, reconciled_db.
  rewrite Hfind, String.eqb_refl. split; reflexivity.
Qed.

(** What the reconcile step does to the tracked-file tables. *)
Lemma reconciled_db_files path h force db :
  match first_file_metadata db path with
  | Some _ => same_files db (reconciled_db cls env path h force db)
  | None => one_more_file cls env path h db (reconciled_db cls env path h force db)
  end.
Proof.
  unfold reconciled_db, same_files, one_more_file.
  destruct (first_file_metadata db path) as [existing|].
  - destruct (negb (FileMetadata.hash existing =? h)%string || force); cbn.
    + now rewrite touch_filenames.
    + split; reflexivity.
  - cbn. split; reflexivity.
Qed.

(** ** Validation *)

Lemma negative_weight_rejected m w z :
  dict_get "weight" m = Some w ->
  lax_int str_as_int w = Some z ->
  z < 0 ->
  SlugWeight_model_validate str_as_int (YMap m) = None.
Proof.
  intros Hw Hz Hneg. unfold SlugWeight_model_validate. rewrite Hw.
  destruct (dict_get "slug" m) as [v|]; [|reflexivity].
  rewrite Hz. destruct (lax_str v); [|reflexivity].
  destruct (Z.leb_spec 0 z); [lia | reflexivity].
Qed.

Lemma validate_all_rejects l v :
  In v l ->
  SlugWeight_model_validate str_as_int v = None ->
  validate_all str_as_int l = None.
Proof.
  induction l as [|v0 l IH]; intros Hin Hv; [destruct Hin|].
  simpl. destruct Hin as [->|Hin].
  - now rewrite Hv.
  - rewrite (IH Hin Hv). now destruct (SlugWeight_model_validate str_as_int v0).
Qed.

End Run.

(** ** Which calls reach the bulk UPDATE and the commit *)

Section Calls.

Variable str_as_int : string -> option Z.
Variable cls : WeightImporterCls.
Variable env : Env.

Lemma reconcile_calls_quiet db path :
  issues_update (reconcile_calls cls env db path) = false /\
  attempts_commit (reconcile_calls cls env db path) = false.
Proof.
  unfold reconcile_calls.
  destruct (get_file_hash env path); [destruct (first_file_metadata db path)|];
    split; reflexivity.
Qed.

Lemma load_calls_quiet path :
  issues_update (load_calls env path) = false /\
  attempts_commit (load_calls env path) = false.
Proof. unfold load_calls. destruct (safe_load env path); split; reflexivity. Qed.

(** A bulk UPDATE is issued, and a commit attempted, exactly when the
    file can be hashed, the gate [file_updated or force] opens and the
    loaded data passes validation. *)
Lemma import_calls_reach s force :
  let reached :=
    match get_file_hash env (file_path cls) with
    | None => false
    | Some h =>
        (reconcile_changed (pending s) (file_path cls) h force || force)
        && match SlugWeights_model_validate str_as_int (loaded_data env (file_path cls)) with
           | Some _ => true
           | None => false
           end
    end in
  issues_update (import_calls str_as_int cls env s force) = reached /\
  attempts_commit (import_calls str_as_int cls env s force) = reached.
Proof.
  destruct (reconcile_calls_quiet (pending s) (file_path cls)) as [Hr1 Hr2].
  unfold import_calls, issues_update, attempts_commit in *. cbn -[reconcile_calls].
  rewrite !existsb_app, Hr1, Hr2.
  destruct (get_file_hash env (file_path cls)) as [h|]; [|split; reflexivity].
  destruct (safe_load env (file_path cls));
    destruct (reconcile_changed (pending s) (file_path cls) h force || force);
    cbn; try (split; reflexivity).
  all: destruct (SlugWeights_model_validate str_as_int _); cbn;
    try (split; reflexivity).
  all: destruct (commit_error env); split; reflexivity.
Qed.


(** A call on a tracked, unchanged file without force: nothing happens
    beyond the reconcile query and the reading of the file. *)
Lemma run_skips_unchanged s force_conditions existing :
  first_file_metadata (pending s) (file_path cls) = Some existing ->
  get_file_hash env (file_path cls) = Some (FileMetadata.hash existing) ->
  any force_conditions = false ->
  let r := run_weight_importer str_as_int cls env s false force_conditions in
  result r = Returned false /\ issues_update (calls r) = false /\ session_after r = s.
Proof.
  intros Hfind Hh Hany r. subst r.
  rewrite run_weight_importer_unfold, Hany. cbn [result calls session_after orb].
  destruct (reconcile_unchanged cls env _ _ _ Hfind) as [Hc Hdb].
  split; [|split].
  - unfold import_result. rewrite Hh, Hc. reflexivity.
  - rewrite (proj1 (import_calls_reach s false)), Hh, Hc. reflexivity.
  - unfold import_session. rewrite Hh, Hc, Hdb. now destruct s.
Qed.

End Calls.

(** ** Forced calls and the tracked-file tables *)

Section Files.

Variable str_as_int : string -> option Z.
Variable cls : WeightImporterCls.
Variable env : Env.

(** A forced reconcile rewrites hash and timestamp of the record. *)
Lemma reconciled_db_forced path h db existing :
  first_file_metadata db path = Some existing ->
  first_file_metadata (reconciled_db cls env path h true db) path
  = Some (FileMetadata.mk (FileMetadata.filename existing) h (datetime_now env)).
Proof.
  intros Hfind. unfold reconciled_db. rewrite Hfind, orb_true_r.
  unfold first_file_metadata in *. cbn.
  now rewrite (find_touch _ _ _ _ _ Hfind).
Qed.

Lemma same_files_refl db : same_files db db.
Proof. split; reflexivity. Qed.

(** The tracked files of a database the transaction may end in: those
    of the reconciled view, whatever was applied on top. *)
Lemma files_after_reconcile path h force db db' :
  file_metadata_table db' = file_metadata_table (reconciled_db cls env path h force db) ->
  yaml_file_table db' = yaml_file_table (reconciled_db cls env path h force db) ->
  same_files db db' \/
  (first_file_metadata db path = None /\ one_more_file cls env path h db db').
Proof.
  intros Hm Hy. pose proof (reconciled_db_files cls env path h force db) as H.
  unfold same_files, one_more_file in *. rewrite Hm, Hy.
  destruct (first_file_metadata db path); [left; exact H | right; split; [reflexivity|exact H]].
Qed.

(** The records created during one call. *)
Lemma import_calls_adds s force :
  filter is_add (import_calls str_as_int cls env s force)
  = match get_file_hash env (file_path cls),
          first_file_metadata (pending s) (file_path cls) with
    | Some h, None =>
        [AddFileMetadata (FileMetadata.mk (file_path cls) h (datetime_now env));
         AddYAMLFile (YAMLFile.mk (file_path cls) (content_type cls))]
    | _, _ => []
    end.
Proof.
  unfold import_calls, reconcile_calls, load_calls, gated_calls, commit_calls.
  destruct (get_file_hash env (file_path cls)) as [h|];
    [|destruct (first_file_metadata (pending s) (file_path cls)); reflexivity].
  destruct (first_file_metadata (pending s) (file_path cls));
    destruct (safe_load env (file_path cls));
    destruct (reconcile_changed (pending s) (file_path cls) h force || force);
    cbn; try reflexivity.
  all: destruct (SlugWeights_model_validate str_as_int _); cbn; try reflexivity.
  all: destruct (commit_error env); reflexivity.
Qed.

End Files.

(** ** The gate *)

(** Force implies [changed], so the gate [file_updated or force] opens
    exactly when the reconcile step reports a change. *)
Lemma gate_is_changed db path h force :
  reconcile_changed db path h force || force = reconcile_changed db path h force.
Proof.
  destruct force; [now rewrite reconcile_changed_force | apply orb_false_r].
Qed.

(** With nothing to match against, every row resolves to weight [0]. *)
Lemma build_mappings_empty cls items :
  build_mappings cls items [] = map (fun item => Mapping.mk (key cls item) 0) items.
Proof. rewrite build_mappings_map. reflexivity. Qed.

(** The bulk UPDATE built from an empty input: every row it names ends
    with weight [0]. *)
Lemma bulk_update_empty_input cls items l row :
  In row (bulk_update (build_mappings cls items []) l) ->
  exists row0,
    In row0 l /\
    Entity.id row = Entity.id row0 /\
    (In (Entity.id row0) (map (key cls) items) -> Entity.weight row = 0).
Proof.
  intros Hrow. rewrite bulk_update_map, build_mappings_empty in Hrow.
  apply in_map_iff in Hrow. destruct Hrow as (row0 & <- & Hrow0).
  exists row0. split; [exact Hrow0|]. split; [apply fold_update_row_id|].
  intros Hkey. apply fold_update_row_zero.
  - intros m Hm. apply in_map_iff in Hm. now destruct Hm as (item & <- & _).
  - left. now rewrite map_map.
Qed.

(** * The claims *)

(** C1. For every existing row handed to the weight applier, the update
    record built for it carries the weight of the first validated entry, in
    input order, whose slug is the row's slug, and 0 when no validated entry
    has that slug; when no two rows share a key, this is the weight every
    row of the updated table with that key holds after [process_data].  For
    the input [[{slug: "a", weight: 5}, {slug: "b", weight: 3}]] and
    existing rows with slugs a, b, c, the import leaves a.weight = 5,
    b.weight = 3 and c.weight = 0 in the committed store. *)
Theorem weight_applier_first_match :
  (forall cls items validated_data i item,
      nth_error items i = Some item ->
      exists m,
        nth_error (build_mappings cls items validated_data) i = Some m /\
        Mapping.id m = key cls item /\
        (forall d, first_with_slug (Entity.slug item) validated_data d ->
                   Mapping.weight m = SlugWeight.weight d) /\
        ((forall d, In d validated_data -> SlugWeight.slug d <> Entity.slug item) ->
         Mapping.weight m = 0) /\
        (NoDup (map (key cls) items) ->
         forall w row,
           In row (rows (pending (session_of (snd (process_data cls items validated_data w))))
                        (update_class cls)) ->
           Entity.id row = key cls item ->
           Entity.weight row = Mapping.weight m)) /\
  (forall str_as_int,
      let r := run_weight_importer str_as_int ex_cls ex_env ex_fresh false [] in
      result r = Returned true /\
      map (fun row => (Entity.slug row, Entity.weight row))
          (rows (committed (session_after r)) Items)
      = [("a"%string, 5); ("b"%string, 3); ("c"%string, 0)]).
Proof.
  split; [|intros str_as_int; split; reflexivity].
  intros cls items validated_data i item Hi.
  exists (mapping_of cls validated_data item).
  rewrite build_mappings_map.
  split; [now apply map_nth_error|].
  split; [reflexivity|].
  split; [|split].
  - intros d Hd. unfold mapping_of. cbn.
    now rewrite (matching_data_first _ _ _ Hd).
  - intros Hnone. unfold mapping_of. cbn.
    now rewrite (matching_data_none _ _ Hnone).
  - intros Hnd w row Hrow Hid.
    unfold process_data, execute_update in Hrow. unfold_monad.
    cbn in Hrow. unfold session_of in Hrow. cbn in Hrow.
    assert (Hrow' : In row (bulk_update (build_mappings cls items validated_data)
                                        (rows (pending (db_session (self w)))
                                              (update_class cls))))
      by (destruct (update_class cls); exact Hrow).
    clear Hrow. rewrite bulk_update_map, build_mappings_map in Hrow'.
    apply in_map_iff in Hrow'. destruct Hrow' as (row0 & <- & _).
    rewrite fold_update_row_id in Hid.
    apply fold_update_row_weight.
    + now rewrite map_map.
    + apply in_map. eapply nth_error_In, Hi.
    + exact Hid.
Qed.

(** C10. The weight applier builds exactly one update record per existing
    row, in row order, keyed by the row; validated entries whose slug
    matches no existing row can be dropped from (or inserted into) the
    input without changing what [process_data] does: same update
    statement, same store. *)
Theorem one_update_record_per_row :
  forall cls items validated_data,
    map Mapping.id (build_mappings cls items validated_data) = map (key cls) items /\
    List.length (build_mappings cls items validated_data) = List.length items /\
    (forall w,
        process_data cls items (filter (matches_some_row items) validated_data) w
        = process_data cls items validated_data w) /\
    (forall before d after w,
        matches_some_row items d = false ->
        process_data cls items (before ++ d :: after) w
        = process_data cls items (before ++ after) w).
Proof.
  intros cls items validated_data.
  split; [|split; [|split]].
  - rewrite build_mappings_map, map_map. reflexivity.
  - rewrite build_mappings_map. apply length_map.
  - intros w. unfold process_data. now rewrite build_mappings_filter.
  - intros before d after w Hd. unfold process_data.
    rewrite <- (build_mappings_filter cls items (before ++ d :: after)).
    rewrite <- (build_mappings_filter cls items (before ++ after)).
    rewrite !filter_app. simpl. rewrite Hd. reflexivity.
Qed.


(** C3. A forced call on a path whose record already exists: whether or
    not the stored hash equals the current content hash, the reconcile step
    sets [file_updated] and rewrites the stored hash and last-modified
    timestamp; whenever the call reports a value, that value is [True], the
    bulk update statement has been issued, and a successful commit has
    stored the rewritten record; and the call does report a value when the
    loaded data passes validation. *)
Theorem forced_import_updates :
  forall str_as_int cls env s force force_conditions existing h,
    first_file_metadata (pending s) (file_path cls) = Some existing ->
    get_file_hash env (file_path cls) = Some h ->
    force || any force_conditions = true ->
    let rewritten :=
      FileMetadata.mk (FileMetadata.filename existing) h (datetime_now env) in
    let r := run_weight_importer str_as_int cls env s force force_conditions in
    (forall w,
        session_of w = s ->
        exists w',
          handle_file_metadata cls env (file_path cls) true w = (Returned tt, w') /\
          file_updated (self w') = true /\
          first_file_metadata (pending (session_of w')) (file_path cls) = Some rewritten) /\
    (forall b,
        result r = Returned b ->
        b = true /\
        exists validated,
          SlugWeights_model_validate str_as_int (loaded_data env (file_path cls))
          = Some validated /\
          In (ExecuteUpdate (update_class cls)
                            (build_mappings cls (loaded_items cls (pending s)) validated))
             (calls r) /\
          (commit_error env = None ->
           first_file_metadata (committed (session_after r)) (file_path cls)
           = Some rewritten)) /\
    (forall validated,
        SlugWeights_model_validate str_as_int (loaded_data env (file_path cls))
        = Some validated ->
        result r = Returned true).
Proof.
  intros str_as_int cls env s force fc existing h Hfind Hh Hforce rewritten r.
  subst r. rewrite run_weight_importer_unfold, Hforce. cbn [result calls session_after].
  unfold import_result. rewrite Hh, reconcile_changed_force. cbn [orb].
  split; [|split].
  - intros w Hw.
    destruct (handle_file_metadata_run cls env (file_path cls) true w) as (fm & yf & E).
    rewrite Hh in E. eexists. split; [exact E|].
    cbn. rewrite reconcile_changed_force. split; [reflexivity|].
    rewrite Hw. now apply reconciled_db_forced.
  - intros b Hb.
    destruct (SlugWeights_model_validate str_as_int (loaded_data env (file_path cls)))
      as [validated|] eqn:Hv; [|discriminate].
    injection Hb as <-. split; [reflexivity|].
    exists validated. split; [reflexivity|]. split.
    + unfold import_calls. rewrite Hh, reconcile_changed_force. cbn [orb].
      right. apply in_or_app. right. apply in_or_app. right.
      unfold gated_calls. rewrite Hv. cbn. right. right. left. reflexivity.
    + intros Hcommit. unfold import_session.
      rewrite Hh, reconcile_changed_force, Hv, Hcommit. cbn.
      rewrite first_file_metadata_applied_db. now apply reconciled_db_forced.
  - intros validated Hv. now rewrite Hv.
Qed.

(** C4. For a path without a record, the reconcile step sets
    [file_updated] and adds exactly one [FileMetadata] row (current hash
    and timestamp) and exactly one [YAMLFile] row linked to it, carrying
    the importer's content type.  Nothing else creates or deletes such
    rows: reconciling an existing record keeps the tracked files, applying
    the weights and validating leave both tables alone, a commit or
    rollback only settles on a view already there, and over a whole call
    the records added are those two when no record existed, none
    otherwise. *)
Theorem first_reconcile_creates_records :
  forall str_as_int cls env,
    (forall path force w h,
        first_file_metadata (pending (session_of w)) path = None ->
        get_file_hash env path = Some h ->
        exists w',
          handle_file_metadata cls env path force w = (Returned tt, w') /\
          file_updated (self w') = true /\
          one_more_file cls env path h (pending (session_of w)) (pending (session_of w')) /\
          committed (session_of w') = committed (session_of w) /\
          (forall t, rows (pending (session_of w')) t = rows (pending (session_of w)) t)) /\
    (forall path force w existing,
        first_file_metadata (pending (session_of w)) path = Some existing ->
        let w' := snd (handle_file_metadata cls env path force w) in
        same_files (pending (session_of w)) (pending (session_of w')) /\
        committed (session_of w') = committed (session_of w)) /\
    (forall items validated w,
        let w' := snd (process_data cls items validated w) in
        file_metadata_table (pending (session_of w'))
        = file_metadata_table (pending (session_of w)) /\
        yaml_file_table (pending (session_of w')) = yaml_file_table (pending (session_of w)) /\
        committed (session_of w') = committed (session_of w)) /\
    (forall data w, session_of (snd (validate_data str_as_int data w)) = session_of w) /\
    (forall w,
        let s' := session_of (snd (commit_changes env w)) in
        s' = session_commit (session_of w) \/ s' = session_rollback (session_of w)) /\
    (forall s force force_conditions,
        let r := run_weight_importer str_as_int cls env s force force_conditions in
        filter is_add (calls r)
        = match get_file_hash env (file_path cls),
                first_file_metadata (pending s) (file_path cls) with
          | Some h, None =>
              [AddFileMetadata (FileMetadata.mk (file_path cls) h (datetime_now env));
               AddYAMLFile (YAMLFile.mk (file_path cls) (content_type cls))]
          | _, _ => []
          end) /\
    (forall s force force_conditions db',
        let r := run_weight_importer str_as_int cls env s force force_conditions in
        db' = pending (session_after r) \/ db' = committed (session_after r) ->
        same_files (committed s) db' \/
        same_files (pending s) db' \/
        (first_file_metadata (pending s) (file_path cls) = None /\
         exists h, get_file_hash env (file_path cls) = Some h /\
                   one_more_file cls env (file_path cls) h (pending s) db')).
Proof.
  intros str_as_int cls env.
  split; [|split; [|split; [|split; [|split; [|split]]]]].
  - intros path force w h Hfind Hh.
    destruct (handle_file_metadata_run cls env path force w) as (fm & yf & E).
    rewrite Hh in E. eexists. split; [exact E|]. cbn.
    unfold reconcile_changed. rewrite Hfind.
    split; [reflexivity|]. split; [|split].
    + pose proof (reconciled_db_files cls env path h force (pending (session_of w))) as H.
      now rewrite Hfind in H.
    + reflexivity.
    + intros t. apply rows_reconciled_db.
  - intros path force w existing Hfind w'. subst w'.
    destruct (handle_file_metadata_run cls env path force w) as (fm & yf & E).
    rewrite E. clear E.
    destruct (get_file_hash env path) as [h|]; cbn.
    + split; [|reflexivity].
      pose proof (reconciled_db_files cls env path h force (pending (session_of w))) as H.
      now rewrite Hfind in H.
    + split; [apply same_files_refl | reflexivity].
  - intros items validated w w'. subst w'.
    unfold process_data, execute_update. unfold_monad. cbn.
    unfold session_of. cbn. destruct (update_class cls); repeat split; reflexivity.
  - intros data w. unfold validate_data. unfold_monad. cbn.
    destruct (SlugWeights_model_validate str_as_int data); reflexivity.
  - intros w s'. subst s'. unfold commit_changes. unfold_monad. cbn.
    destruct (commit_error env); cbn; [right | left]; reflexivity.
  - intros s force fc r. subst r. rewrite run_weight_importer_unfold.
    cbn [calls]. apply import_calls_adds.
  - intros s force fc db' r Hdb'. subst r.
    rewrite run_weight_importer_unfold in Hdb'. cbn [session_after] in Hdb'.
    unfold import_session in Hdb'.
    destruct (get_file_hash env (file_path cls)) as [h|] eqn:Hh.
    2:{ destruct Hdb' as [->| ->];
          [right; left; apply same_files_refl | left; apply same_files_refl]. }
    set (f := force || any fc) in *.
    assert (Hrec : forall db,
               file_metadata_table db
               = file_metadata_table (reconciled_db cls env (file_path cls) h f (pending s)) ->
               yaml_file_table db
               = yaml_file_table (reconciled_db cls env (file_path cls) h f (pending s)) ->
               same_files (committed s) db \/
               same_files (pending s) db \/
               (first_file_metadata (pending s) (file_path cls) = None /\
                exists h0, Some h = Some h0 /\
                           one_more_file cls env (file_path cls) h0 (pending s) db)).
    { intros db Hm Hy.
      destruct (files_after_reconcile cls env _ _ _ _ _ Hm Hy) as [H|[H1 H2]].
      - right. left. exact H.
      - right. right. split; [exact H1|]. exists h. split; [reflexivity | exact H2]. }
    destruct (reconcile_changed (pending s) (file_path cls) h f || f); cbn in Hdb'.
    + destruct (SlugWeights_model_validate str_as_int (loaded_data env (file_path cls)))
        as [validated|]; cbn in Hdb'.
      * destruct (commit_error env); cbn in Hdb'.
        -- left. destruct Hdb' as [->| ->]; apply same_files_refl.
        -- assert (E : db' = applied_db cls validated
                                        (reconciled_db cls env (file_path cls) h f (pending s)))
             by (destruct Hdb' as [->| ->]; reflexivity).
           subst db'. apply Hrec; apply file_tables_applied_db.
      * destruct Hdb' as [->| ->]; [apply Hrec; reflexivity | left; apply same_files_refl].
    + destruct Hdb' as [->| ->]; [apply Hrec; reflexivity | left; apply same_files_refl].
Qed.

(** C5. An input that contains an entry with a negative weight fails
    validation: [validate_data] prints its diagnostic and raises
    [ValidationError].  In a call that loads such an input, no bulk update
    is executed and no commit attempted, the committed store and the
    entity rows of the transaction are as before, and whenever validation
    is reached (the reconcile step reports a change) the error leaves
    [run_weight_importer] uncaught. *)
Theorem negative_weight_aborts :
  forall str_as_int cls env s force force_conditions l m w z,
    In (YMap m) l ->
    dict_get "weight" m = Some w ->
    lax_int str_as_int w = Some z ->
    z < 0 ->
    (forall world,
        validate_data str_as_int (YSeq l) world
        = (Raised ValidationError,
           mkWorld (self world)
                   (trace world ++ [ModelValidate (YSeq l); Print ValidationErrorMsg]))) /\
    (safe_load env (file_path cls) = Loaded (YSeq l) ->
     let r := run_weight_importer str_as_int cls env s force force_conditions in
     issues_update (calls r) = false /\
     attempts_commit (calls r) = false /\
     committed (session_after r) = committed s /\
     (forall t, rows (pending (session_after r)) t = rows (pending s) t) /\
     (forall h,
         get_file_hash env (file_path cls) = Some h ->
         reconcile_changed (pending s) (file_path cls) h (force || any force_conditions)
         = true ->
         result r = Raised ValidationError /\
         In (Print ValidationErrorMsg) (calls r))).
Proof.
  intros str_as_int cls env s force fc l m w z Hin Hw Hz Hneg.
  assert (Hv : SlugWeights_model_validate str_as_int (YSeq l) = None).
  { cbn. apply validate_all_rejects with (v := YMap m); [exact Hin|].
    now apply negative_weight_rejected with (w := w) (z := z). }
  split.
  - intros world. unfold validate_data. unfold_monad. cbn [schema model_validate].
    rewrite Hv. cbn. now rewrite <- app_assoc.
  - intros Hload r. subst r.
    assert (Hdata : loaded_data env (file_path cls) = YSeq l)
      by (unfold loaded_data; now rewrite Hload).
    rewrite run_weight_importer_unfold. cbn [result calls session_after].
    destruct (import_calls_reach str_as_int cls env s (force || any fc)) as [Hu Hc].
    rewrite Hu, Hc, Hdata, Hv. clear Hu Hc.
    unfold import_session, import_result, import_calls. rewrite Hdata, Hv.
    destruct (get_file_hash env (file_path cls)) as [h|].
    + rewrite andb_false_r.
      split; [reflexivity|]. split; [reflexivity|].
      split; [|split].
      * destruct (reconcile_changed _ _ _ _ || _); reflexivity.
      * intros t. destruct (reconcile_changed _ _ _ _ || _); cbn;
          apply rows_reconciled_db.
      * intros h0 [= <-] Hc. rewrite Hc. cbn [orb]. split; [reflexivity|].
        right. apply in_or_app. right. apply in_or_app. right.
        unfold gated_calls. rewrite Hv. cbn. right. right. left. reflexivity.
    + split; [reflexivity|]. split; [reflexivity|]. split; [reflexivity|].
      split; [reflexivity|]. intros h [=].
Qed.

(** C6. When opening or parsing the file fails, [load_yaml_data] prints its
    diagnostic and returns the empty sequence instead of raising.  The
    bulk update built from that empty input leaves weight 0 on every row it
    names.  A call that is triggered (changed or forced) goes on with the
    empty input: it returns normally, issues the bulk update with weight 0
    for every loaded row and attempts the commit; once committed, every row
    of the updated table named by a loaded row has weight 0, which is every
    row of the model's table when the weights are stored on the rows
    themselves. *)
Theorem load_failure_resets_weights :
  forall str_as_int cls env s force force_conditions h e,
    get_file_hash env (file_path cls) = Some h ->
    safe_load env (file_path cls) = LoadError e ->
    (forall f w,
        exists w',
          load_yaml_data cls env (file_path cls) f w = (Returned (YSeq []), w') /\
          exists before,
            trace w' = before ++ [Open (file_path cls); Print (ErrorLoadingYAML e)]) /\
    (forall items w row,
        In row (rows (pending (session_of (snd (process_data cls items [] w))))
                     (update_class cls)) ->
        In (Entity.id row) (map (key cls) items) ->
        Entity.weight row = 0) /\
    (forall w row,
        parent_model cls = None ->
        In row (rows (pending (session_of
                  (snd (process_data cls (loaded_items cls (pending (session_of w))) [] w))))
                     (model cls)) ->
        Entity.weight row = 0) /\
    (reconcile_changed (pending s) (file_path cls) h (force || any force_conditions)
     || (force || any force_conditions) = true ->
     let r := run_weight_importer str_as_int cls env s force force_conditions in
     result r = Returned true /\
     In (ExecuteUpdate (update_class cls)
                       (map (fun item => Mapping.mk (key cls item) 0)
                            (loaded_items cls (pending s))))
        (calls r) /\
     attempts_commit (calls r) = true /\
     (commit_error env = None ->
      (forall row,
          In row (rows (committed (session_after r)) (update_class cls)) ->
          In (Entity.id row) (map (key cls) (loaded_items cls (pending s))) ->
          Entity.weight row = 0) /\
      (parent_model cls = None ->
       forall row,
         In row (rows (committed (session_after r)) (model cls)) ->
         Entity.weight row = 0))).
Proof.
  intros str_as_int cls env s force fc h e Hh Hload.
  assert (Hdata : loaded_data env (file_path cls) = YSeq [])
    by (unfold loaded_data; now rewrite Hload).
  assert (Hupdated : forall items w row,
             In row (rows (pending (session_of (snd (process_data cls items [] w))))
                          (update_class cls)) ->
             In row (bulk_update (build_mappings cls items [])
                                 (rows (pending (session_of w)) (update_class cls)))).
  { intros items w row Hrow.
    unfold process_data, execute_update in Hrow. unfold_monad.
    unfold session_of in *. cbn in Hrow.
    destruct (update_class cls); exact Hrow. }
  split; [|split; [|split]].
  - intros f w.
    destruct (handle_file_metadata_run cls env (file_path cls) f w) as (fm & yf & E).
    rewrite Hh in E.
    unfold load_yaml_data. unfold_monad. rewrite E, Hload. cbn.
    eexists. split; [reflexivity|]. cbn.
    exists (trace w ++ reconcile_calls cls env (pending (session_of w)) (file_path cls)).
    now rewrite <- !app_assoc.
  - intros items w row Hrow Hkey.
    destruct (bulk_update_empty_input _ _ _ _ (Hupdated _ _ _ Hrow))
      as (row0 & _ & Hid & Hzero).
    apply Hzero. now rewrite <- Hid.
  - intros w row Hparent Hrow.
    assert (Huc : update_class cls = model cls)
      by (unfold update_class; now rewrite Hparent).
    rewrite <- Huc in Hrow.
    destruct (bulk_update_empty_input _ _ _ _ (Hupdated _ _ _ Hrow))
      as (row0 & Hrow0 & _ & Hzero).
    apply Hzero. rewrite Huc in Hrow0.
    assert (Hkey : map (key cls) (loaded_items cls (pending (session_of w)))
                   = map Entity.id (loaded_items cls (pending (session_of w))))
      by (apply map_ext; intros item; unfold key; now rewrite Hparent).
    rewrite Hkey. now apply unique_keeps_ids.
  - intros Hgate r. subst r. rewrite gate_is_changed in Hgate.
    rewrite run_weight_importer_unfold. cbn [result calls session_after].
    destruct (import_calls_reach str_as_int cls env s (force || any fc)) as [_ Hc].
    rewrite Hc, Hh, Hdata, gate_is_changed, Hgate. clear Hc.
    unfold import_result, import_calls, import_session.
    rewrite Hh, Hdata, gate_is_changed, Hgate. cbn [SlugWeights_model_validate validate_all].
    split; [reflexivity|]. split; [|split; [reflexivity|]].
    + right. apply in_or_app. right. apply in_or_app. right.
      unfold gated_calls. cbn. rewrite build_mappings_empty.
      right. right. left. reflexivity.
    + intros Hcommit. rewrite Hcommit. cbn [session_commit committed pending].
      set (f := force || any fc).
      assert (Hrows : forall row,
                 In row (rows (applied_db cls []
                                (reconciled_db cls env (file_path cls) h f (pending s)))
                              (update_class cls)) ->
                 exists row0,
                   In row0 (rows (pending s) (update_class cls)) /\
                   Entity.id row = Entity.id row0 /\
                   (In (Entity.id row0) (map (key cls) (loaded_items cls (pending s))) ->
                    Entity.weight row = 0)).
      { intros row Hrow. rewrite rows_applied_db in Hrow.
        unfold loaded_items in Hrow. rewrite !rows_reconciled_db in Hrow.
        fold (loaded_items cls (pending s)) in Hrow.
        now apply bulk_update_empty_input. }
      split.
      * intros row Hrow Hkey. destruct (Hrows row Hrow) as (row0 & _ & Hid & Hzero).
        apply Hzero. now rewrite <- Hid.
      * intros Hparent row Hrow.
        assert (Huc : update_class cls = model cls)
          by (unfold update_class; now rewrite Hparent).
        rewrite <- Huc in Hrow.
        destruct (Hrows row Hrow) as (row0 & Hrow0 & _ & Hzero).
        apply Hzero. rewrite Huc in Hrow0.
        assert (Hkey : map (key cls) (loaded_items cls (pending s))
                       = map Entity.id (loaded_items cls (pending s)))
          by (apply map_ext; intros item; unfold key; now rewrite Hparent).
        rewrite Hkey. now apply unique_keeps_ids.
Qed.

(** C7. When the commit fails, [commit_changes] prints its diagnostic,
    rolls the transaction back and returns normally.  A call whose commit
    was attempted and failed therefore returns [True], exactly what it
    returns when the commit goes through; its session is back at the
    committed store, so neither the tracked-file changes nor the weight
    changes of this call remain (a session that was clean before the call
    is exactly as before); the diagnostic and the rollback are among its
    calls. *)
Theorem failed_commit_is_rolled_back :
  forall str_as_int cls env s force force_conditions e,
    commit_error env = Some e ->
    (forall w,
        commit_changes env w
        = (Returned tt,
           mkWorld (set_db_session (session_rollback (session_of w)) (self w))
                   (trace w ++ [Commit; Print (ErrorCommitting e); Rollback]))) /\
    (let r := run_weight_importer str_as_int cls env s force force_conditions in
     attempts_commit (calls r) = true ->
     result r = Returned true /\
     session_after r = mkSession (committed s) (committed s) /\
     (committed s = pending s -> session_after r = s) /\
     In (Print (ErrorCommitting e)) (calls r) /\
     In Rollback (calls r) /\
     result (run_weight_importer str_as_int cls (with_commit_error env None)
                                 s force force_conditions)
     = result r).
Proof.
  intros str_as_int cls env s force fc e Hcommit. split.
  - intros w. unfold commit_changes. unfold_monad. rewrite Hcommit. cbn.
    now rewrite <- !app_assoc.
  - intros r. subst r. rewrite !run_weight_importer_unfold.
    cbn [result calls session_after].
    rewrite (proj2 (import_calls_reach str_as_int cls env s (force || any fc))).
    unfold import_result, import_session, import_calls.
    change (loaded_data (with_commit_error env None) (file_path cls))
      with (loaded_data env (file_path cls)).
    cbn [with_commit_error get_file_hash].
    destruct (get_file_hash env (file_path cls)) as [h|]; [|discriminate].
    rewrite gate_is_changed.
    destruct (reconcile_changed (pending s) (file_path cls) h (force || any fc));
      [|discriminate].
    destruct (SlugWeights_model_validate str_as_int (loaded_data env (file_path cls)))
      as [validated|] eqn:Hv; [|discriminate].
    intros _. rewrite Hcommit. cbn [session_rollback committed].
    split; [reflexivity|]. split; [reflexivity|].
    split; [intros E; destruct s as [c p]; cbn in *; now subst|].
    cbn [orb]. unfold gated_calls, commit_calls. rewrite Hv, Hcommit.
    split; [|split; [|reflexivity]].
    + right. apply in_or_app. right. apply in_or_app. right. cbn.
      do 4 right. left. reflexivity.
    + right. apply in_or_app. right. apply in_or_app. right. cbn.
      do 5 right. left. reflexivity.
Qed.

(** C8 (as amended). The external calls of one import, in order: the
    reconcile step (query, hash, and the two inserts when the file is
    new), then, whether or not anything changed, the opening and parsing
    of the file (with its diagnostic on failure); after that, if the
    reconcile step reported a change or the call is forced, the loading
    of the rows, the validation, the bulk update and the commit; and
    otherwise nothing more than the closing [DONE]. *)
Theorem import_data_step_order :
  forall str_as_int cls env s force force_conditions,
    let f := force || any force_conditions in
    let r := run_weight_importer str_as_int cls env s force force_conditions in
    calls r = import_calls str_as_int cls env s f /\
    (forall h,
        get_file_hash env (file_path cls) = Some h ->
        exists gated,
          calls r
          = Print (ImportingWeights (model cls))
            :: reconcile_calls cls env (pending s) (file_path cls)
            ++ load_calls env (file_path cls)
            ++ gated /\
          In (Open (file_path cls)) (calls r) /\
          (reconcile_changed (pending s) (file_path cls) h f || f = false ->
           gated = [Print DONE]) /\
          (reconcile_changed (pending s) (file_path cls) h f || f = true ->
           gated = gated_calls str_as_int cls env (pending s)
                               (loaded_data env (file_path cls)))).
Proof.
  intros str_as_int cls env s force fc f r. subst r f.
  rewrite run_weight_importer_unfold. cbn [calls].
  split; [reflexivity|].
  intros h Hh. unfold import_calls. rewrite Hh.
  eexists. split; [reflexivity|]. split; [|split].
  - right. apply in_or_app. right. apply in_or_app. left. now left.
  - intros ->. reflexivity.
  - intros ->. reflexivity.
Qed.

(** [any(force_conditions)] holds exactly when one of the conditions is
    true. *)
Lemma any_true_iff l : any l = true <-> In true l.
Proof.
  unfold any. rewrite existsb_exists. split.
  - intros (b & Hin & ->). exact Hin.
  - intros Hin. exists true. now split.
Qed.

Lemma forced_iff force l :
  force || any l = true <-> force = true \/ In true l.
Proof. rewrite orb_true_iff, any_true_iff. reflexivity. Qed.

Lemma unforced_iff force l :
  force || any l = false <-> force = false /\ forall b, In b l -> b = false.
Proof.
  rewrite orb_false_iff. split; intros [Hf Hl]; (split; [exact Hf|]).
  - intros b Hin. destruct b; [|reflexivity].
    apply any_true_iff in Hin. now rewrite Hin in Hl.
  - destruct (any l) eqn:E; [|reflexivity].
    apply any_true_iff in E. now apply Hl.
Qed.

(** C9. The explicit flag and the [force_conditions] are ORed before the
    import runs: when the flag or any one of the conditions is true, the
    call is the forced call, and when the flag and every condition are
    false it is the unforced one.  When the file can be hashed, a boolean
    it returns is [True] exactly when the file was considered updated: a
    new record was created, or the stored hash of the existing record
    differed from the current hash, or the flag or one of the conditions
    held.  It returns that boolean unless the file was considered updated
    and validation fails, in which case [ValidationError] is raised. *)
Theorem run_returns_file_updated :
  forall str_as_int cls env s force force_conditions,
    let r := run_weight_importer str_as_int cls env s force force_conditions in
    (force = true \/ In true force_conditions ->
     r = run_weight_importer str_as_int cls env s true []) /\
    (force = false ->
     (forall b, In b force_conditions -> b = false) ->
     r = run_weight_importer str_as_int cls env s false []) /\
    (forall h,
        get_file_hash env (file_path cls) = Some h ->
        let updated :=
          first_file_metadata (pending s) (file_path cls) = None \/
          exists existing,
            first_file_metadata (pending s) (file_path cls) = Some existing /\
            (FileMetadata.hash existing <> h \/
             force = true \/ In true force_conditions) in
        (forall b, result r = Returned b -> (b = true <-> updated)) /\
        (updated ->
         SlugWeights_model_validate str_as_int (loaded_data env (file_path cls)) <> None ->
         result r = Returned true) /\
        (updated ->
         SlugWeights_model_validate str_as_int (loaded_data env (file_path cls)) = None ->
         result r = Raised ValidationError) /\
        (~ updated -> result r = Returned false)).
Proof.
  intros str_as_int cls env s force fc r. subst r.
  rewrite !run_weight_importer_unfold.
  change (any []) with false. rewrite !orb_false_r.
  pose proof (forced_iff force fc) as Hforced.
  pose proof (unforced_iff force fc) as Hunforced.
  set (f := force || any fc) in *.
  split; [|split].
  - intros Hf. apply Hforced in Hf. now rewrite Hf.
  - intros Hforce Hconds.
    assert (Hf : f = false) by (apply Hunforced; now split).
    now rewrite Hf.
  - intros h Hh. cbn zeta. cbn [result].
    unfold import_result. rewrite Hh, gate_is_changed.
    assert (Hchanged :
              reconcile_changed (pending s) (file_path cls) h f = true <->
              first_file_metadata (pending s) (file_path cls) = None \/
              exists existing,
                first_file_metadata (pending s) (file_path cls) = Some existing /\
                (FileMetadata.hash existing <> h \/ force = true \/ In true fc)).
    { unfold reconcile_changed.
      destruct (first_file_metadata (pending s) (file_path cls)) as [existing|].
      - rewrite orb_true_iff, negb_true_iff, String.eqb_neq, Hforced. split.
        + intros H. right. exists existing. now split.
        + intros [[=]|(existing' & [= <-] & H)]. exact H.
      - split; [now left | reflexivity]. }
    destruct (reconcile_changed (pending s) (file_path cls) h f) eqn:Hc.
    + assert (Hupd := proj1 Hchanged eq_refl).
      split; [|split; [|split]].
      * intros b Hb.
        destruct (SlugWeights_model_validate str_as_int (loaded_data env (file_path cls)));
          [|discriminate]. injection Hb as <-. now split.
      * intros _ Hv.
        destruct (SlugWeights_model_validate str_as_int (loaded_data env (file_path cls)));
          [reflexivity | contradiction].
      * intros _ Hv. now rewrite Hv.
      * intros Hnot. contradiction.
    + assert (Hnot : ~ (first_file_metadata (pending s) (file_path cls) = None \/
                        exists existing,
                          first_file_metadata (pending s) (file_path cls) = Some existing /\
                          (FileMetadata.hash existing <> h \/ force = true \/ In true fc))).
      { intros H. apply Hchanged in H. discriminate H. }
      split; [|split; [|split]].
      * intros b [= <-]. split; [discriminate | intros H; contradiction].
      * intros H. contradiction.
      * intros H. contradiction.
      * intros _. reflexivity.
Qed.

(** * The claims on the sample data *)

(** The applier on the rows a, b, c and the validated input a:5, b:3: the
    record of row b carries 3, the first match; the record of row c, which
    nothing matches, carries 0. *)
Lemma weight_applier_first_match_witness :
  nth_error ex_rows 1 = Some (Entity.mk 2 "b" 9 0) /\
  first_with_slug "b" ex_validated (SlugWeight.mk "b" 3) /\
  nth_error ex_rows 2 = Some (Entity.mk 3 "c" 9 0) /\
  (forall d, In d ex_validated -> SlugWeight.slug d <> "c"%string) /\
  NoDup (map (key ex_cls) ex_rows) /\
  (exists m,
      nth_error (build_mappings ex_cls ex_rows ex_validated) 1 = Some m /\
      Mapping.id m = 2 /\ Mapping.weight m = 3) /\
  (exists m,
      nth_error (build_mappings ex_cls ex_rows ex_validated) 2 = Some m /\
      Mapping.id m = 3 /\ Mapping.weight m = 0).
Proof.
  assert (Hb : nth_error ex_rows 1 = Some (Entity.mk 2 "b" 9 0)) by reflexivity.
  assert (Hc : nth_error ex_rows 2 = Some (Entity.mk 3 "c" 9 0)) by reflexivity.
  assert (Hfirst : first_with_slug "b" ex_validated (SlugWeight.mk "b" 3)).
  { exists [SlugWeight.mk "a" 5], []. split; [reflexivity|]. split; [reflexivity|].
    intros d [<-|[]]. discriminate. }
  assert (Hnone : forall d, In d ex_validated -> SlugWeight.slug d <> "c"%string).
  { intros d [<-|[<-|[]]]; discriminate. }
  assert (Hnd : NoDup (map (key ex_cls) ex_rows)).
  { cbn. repeat constructor; cbn; intros H; repeat destruct H as [H|H];
      try discriminate H; exact H. }
  split; [exact Hb|]. split; [exact Hfirst|]. split; [exact Hc|].
  split; [exact Hnone|]. split; [exact Hnd|]. split.
  - destruct (proj1 weight_applier_first_match ex_cls ex_rows ex_validated 1%nat _ Hb)
      as (m & Hm & Hid & Hw & _ & _).
    exists m. split; [exact Hm|]. split; [exact Hid|]. exact (Hw _ Hfirst).
  - destruct (proj1 weight_applier_first_match ex_cls ex_rows ex_validated 2%nat _ Hc)
      as (m & Hm & Hid & _ & Hw & _).
    exists m. split; [exact Hm|]. split; [exact Hid|]. exact (Hw Hnone).
Defined.

(** An entry with a slug no row carries can be inserted without changing
    what the applier does. *)
Lemma one_update_record_per_row_witness :
  matches_some_row ex_rows (SlugWeight.mk "z" 7) = false /\
  process_data ex_cls ex_rows
               ([SlugWeight.mk "a" 5] ++ SlugWeight.mk "z" 7 :: [SlugWeight.mk "b" 3])
               (mkWorld (new_importer ex_fresh) [])
  = process_data ex_cls ex_rows ([SlugWeight.mk "a" 5] ++ [SlugWeight.mk "b" 3])
                 (mkWorld (new_importer ex_fresh) []).
Proof.
  assert (H : matches_some_row ex_rows (SlugWeight.mk "z" 7) = false) by reflexivity.
  split; [exact H|].
  destruct (one_update_record_per_row ex_cls ex_rows []) as (_ & _ & _ & Hins).
  exact (Hins [SlugWeight.mk "a" 5] (SlugWeight.mk "z" 7) [SlugWeight.mk "b" 3] _ H).
Defined.


(** A forced call on the tracked, unchanged file: it returns [True], the
    record is rewritten and the bulk update issued. *)
Lemma forced_import_updates_witness :
  first_file_metadata (pending ex_tracked) (file_path ex_cls)
  = Some (FileMetadata.mk "weights.yaml" "h1" 50) /\
  get_file_hash ex_env (file_path ex_cls) = Some "h1"%string /\
  true || any [] = true /\
  session_of (mkWorld (new_importer ex_tracked) []) = ex_tracked /\
  result ex_forced_run = Returned true /\
  SlugWeights_model_validate no_str_as_int (loaded_data ex_env (file_path ex_cls))
  = Some ex_validated /\
  commit_error ex_env = None /\
  (exists w',
      handle_file_metadata ex_cls ex_env (file_path ex_cls) true
                           (mkWorld (new_importer ex_tracked) [])
      = (Returned tt, w') /\
      file_updated (self w') = true /\
      first_file_metadata (pending (session_of w')) (file_path ex_cls)
      = Some (FileMetadata.mk "weights.yaml" "h1" 100)) /\
  (exists validated,
      In (ExecuteUpdate (update_class ex_cls)
                        (build_mappings ex_cls (loaded_items ex_cls (pending ex_tracked))
                                        validated))
         (calls ex_forced_run) /\
      first_file_metadata (committed (session_after ex_forced_run)) (file_path ex_cls)
      = Some (FileMetadata.mk "weights.yaml" "h1" 100)).
Proof.
  unfold ex_forced_run.
  assert (H1 : first_file_metadata (pending ex_tracked) (file_path ex_cls)
               = Some (FileMetadata.mk "weights.yaml" "h1" 50)) by reflexivity.
  assert (H2 : get_file_hash ex_env (file_path ex_cls) = Some "h1"%string) by reflexivity.
  assert (H3 : true || any [] = true) by reflexivity.
  assert (H4 : SlugWeights_model_validate no_str_as_int
                 (loaded_data ex_env (file_path ex_cls)) = Some ex_validated)
    by reflexivity.
  assert (H5 : commit_error ex_env = None) by reflexivity.
  assert (H7 : session_of (mkWorld (new_importer ex_tracked) []) = ex_tracked)
    by reflexivity.
  destruct (forced_import_updates no_str_as_int ex_cls ex_env ex_tracked true []
              _ _ H1 H2 H3) as (Hreconcile & Hreported & Hreturns).
  assert (H6 : result (run_weight_importer no_str_as_int ex_cls ex_env ex_tracked true []) = Returned true) by exact (Hreturns _ H4).
  split; [exact H1|]. split; [exact H2|]. split; [exact H3|]. split; [exact H7|].
  split; [exact H6|]. split; [exact H4|]. split; [exact H5|]. split.
  - exact (Hreconcile _ H7).
  - destruct (Hreported _ H6) as (_ & validated & _ & Hu & Hc).
    exists validated. split; [exact Hu | exact (Hc H5)].
Defined.

(** The first reconcile of a file the store has never seen, a reconcile of
    the tracked file, and the tracked files after the first import. *)
Lemma first_reconcile_creates_records_witness :
  first_file_metadata (pending (session_of (mkWorld (new_importer ex_fresh) [])))
                      "weights.yaml" = None /\
  get_file_hash ex_env "weights.yaml" = Some "h1"%string /\
  first_file_metadata (pending (session_of (mkWorld (new_importer ex_tracked) [])))
                      "weights.yaml"
  = Some (FileMetadata.mk "weights.yaml" "h1" 50) /\
  (exists w',
      handle_file_metadata ex_cls ex_env "weights.yaml" false
                           (mkWorld (new_importer ex_fresh) [])
      = (Returned tt, w') /\
      file_updated (self w') = true /\
      file_metadata_table (pending (session_of w'))
      = [FileMetadata.mk "weights.yaml" "h1" 100] /\
      yaml_file_table (pending (session_of w')) = [YAMLFile.mk "weights.yaml" "weights"]) /\
  same_files
    (pending ex_tracked)
    (pending (session_of (snd (handle_file_metadata ex_cls ex_env "weights.yaml" true
                                 (mkWorld (new_importer ex_tracked) []))))) /\
  (same_files (committed ex_fresh) (committed (session_after ex_first_run)) \/
   same_files (pending ex_fresh) (committed (session_after ex_first_run)) \/
   (first_file_metadata (pending ex_fresh) (file_path ex_cls) = None /\
    exists h, get_file_hash ex_env (file_path ex_cls) = Some h /\
              one_more_file ex_cls ex_env (file_path ex_cls) h (pending ex_fresh)
                            (committed (session_after ex_first_run)))).
Proof.
  unfold ex_first_run.
  assert (H1 : first_file_metadata
                 (pending (session_of (mkWorld (new_importer ex_fresh) [])))
                 "weights.yaml" = None)
    by reflexivity.
  assert (H2 : get_file_hash ex_env "weights.yaml" = Some "h1"%string) by reflexivity.
  assert (H3 : first_file_metadata
                 (pending (session_of (mkWorld (new_importer ex_tracked) [])))
                 "weights.yaml"
               = Some (FileMetadata.mk "weights.yaml" "h1" 50)) by reflexivity.
  split; [exact H1|]. split; [exact H2|]. split; [exact H3|].
  destruct (first_reconcile_creates_records no_str_as_int ex_cls ex_env)
    as (Hnew & Hold & _ & _ & _ & _ & Hrun).
  split; [|split].
  - destruct (Hnew "weights.yaml"%string false _ _ H1 H2)
      as (w' & Hw' & Hfu & [Hm Hy] & _).
    exists w'. split; [exact Hw'|]. split; [exact Hfu|]. split; [exact Hm | exact Hy].
  - exact (proj1 (Hold "weights.yaml"%string true _ _ H3)).
  - exact (Hrun ex_fresh false [] _ (or_intror eq_refl)).
Defined.

(** The input [[{slug: "a", weight: -1}]]: validation raises, nothing is
    updated or committed. *)
Lemma negative_weight_aborts_witness :
  In (entry "a" (-1)) [entry "a" (-1)] /\
  dict_get "weight" [(YStr "slug", YStr "a"); (YStr "weight", YInt (-1))]
  = Some (YInt (-1)) /\
  lax_int no_str_as_int (YInt (-1)) = Some (-1) /\
  -1 < 0 /\
  safe_load ex_negative_env (file_path ex_cls) = Loaded (YSeq [entry "a" (-1)]) /\
  get_file_hash ex_negative_env (file_path ex_cls) = Some "h2"%string /\
  reconcile_changed (pending ex_tracked) (file_path ex_cls) "h2" (false || any []) = true /\
  issues_update (calls ex_negative_run) = false /\
  attempts_commit (calls ex_negative_run) = false /\
  committed (session_after ex_negative_run) = committed ex_tracked /\
  rows (pending (session_after ex_negative_run)) Items = rows (pending ex_tracked) Items /\
  result ex_negative_run = Raised ValidationError.
Proof.
  unfold ex_negative_run.
  assert (H1 : In (entry "a" (-1)) [entry "a" (-1)]) by (left; reflexivity).
  assert (H2 : dict_get "weight" [(YStr "slug", YStr "a"); (YStr "weight", YInt (-1))]
               = Some (YInt (-1))) by reflexivity.
  assert (H3 : lax_int no_str_as_int (YInt (-1)) = Some (-1)) by reflexivity.
  assert (H4 : -1 < 0) by lia.
  assert (H5 : safe_load ex_negative_env (file_path ex_cls)
               = Loaded (YSeq [entry "a" (-1)])) by reflexivity.
  assert (H6 : get_file_hash ex_negative_env (file_path ex_cls) = Some "h2"%string)
    by reflexivity.
  assert (H7 : reconcile_changed (pending ex_tracked) (file_path ex_cls) "h2"
                                 (false || any []) = true) by reflexivity.
  split; [exact H1|]. split; [exact H2|]. split; [exact H3|]. split; [exact H4|].
  split; [exact H5|]. split; [exact H6|]. split; [exact H7|].
  destruct (negative_weight_aborts no_str_as_int ex_cls ex_negative_env ex_tracked
              false [] _ _ _ _ H1 H2 H3 H4) as (_ & Hrun).
  destruct (Hrun H5) as (Hu & Hc & Hcommitted & Hrows & Hraise).
  split; [exact Hu|]. split; [exact Hc|]. split; [exact Hcommitted|].
  split; [exact (Hrows Items)|].
  exact (proj1 (Hraise _ H6 H7)).
Defined.

(** An unparseable file whose hash differs from the tracked one: the call
    goes on and every row ends with weight 0. *)
Lemma load_failure_resets_weights_witness :
  get_file_hash ex_unparseable_env (file_path ex_cls) = Some "h2"%string /\
  safe_load ex_unparseable_env (file_path ex_cls)
  = LoadError "mapping values are not allowed here" /\
  reconcile_changed (pending ex_tracked) (file_path ex_cls) "h2" (false || any [])
  || (false || any []) = true /\
  commit_error ex_unparseable_env = None /\
  parent_model ex_cls = None /\
  result ex_unparseable_run = Returned true /\
  attempts_commit (calls ex_unparseable_run) = true /\
  (exists row,
      In row (rows (committed (session_after ex_unparseable_run)) (model ex_cls)) /\
      Entity.slug row = "a"%string /\
      Entity.weight row = 0).
Proof.
  unfold ex_unparseable_run.
  assert (H1 : get_file_hash ex_unparseable_env (file_path ex_cls) = Some "h2"%string)
    by reflexivity.
  assert (H2 : safe_load ex_unparseable_env (file_path ex_cls)
               = LoadError "mapping values are not allowed here") by reflexivity.
  assert (H3 : reconcile_changed (pending ex_tracked) (file_path ex_cls) "h2"
                                 (false || any [])
               || (false || any []) = true) by reflexivity.
  assert (H4 : commit_error ex_unparseable_env = None) by reflexivity.
  assert (H5 : parent_model ex_cls = None) by reflexivity.
  assert (H6 : In (Entity.mk 1 "a" 0 0)
                  (rows (committed (session_after (run_weight_importer no_str_as_int ex_cls ex_unparseable_env ex_tracked false []))) (model ex_cls)))
    by (left; reflexivity).
  split; [exact H1|]. split; [exact H2|]. split; [exact H3|]. split; [exact H4|].
  split; [exact H5|].
  destruct (load_failure_resets_weights no_str_as_int ex_cls ex_unparseable_env ex_tracked
              false [] _ _ H1 H2) as (_ & _ & _ & Hrun).
  destruct (Hrun H3) as (Hr & _ & Hc & Hzero).
  split; [exact Hr|]. split; [exact Hc|].
  exists (Entity.mk 1 "a" 0 0). split; [exact H6|]. split; [reflexivity|].
  exact (proj2 (Hzero H4) H5 _ H6).
Defined.

(** A failing commit on a fresh, clean store: the call returns [True] and
    the session is as before. *)
Lemma failed_commit_is_rolled_back_witness :
  commit_error ex_failing_commit_env = Some "database is locked"%string /\
  committed ex_fresh = pending ex_fresh /\
  attempts_commit (calls ex_failed_commit_run) = true /\
  result ex_failed_commit_run = Returned true /\
  session_after ex_failed_commit_run = ex_fresh /\
  In (Print (ErrorCommitting "database is locked")) (calls ex_failed_commit_run) /\
  In Rollback (calls ex_failed_commit_run).
Proof.
  unfold ex_failed_commit_run.
  assert (H1 : commit_error ex_failing_commit_env = Some "database is locked"%string)
    by reflexivity.
  assert (H2 : committed ex_fresh = pending ex_fresh) by reflexivity.
  assert (H3 : attempts_commit (calls (run_weight_importer no_str_as_int ex_cls ex_failing_commit_env ex_fresh false [])) = true) by reflexivity.
  split; [exact H1|]. split; [exact H2|]. split; [exact H3|].
  destruct (failed_commit_is_rolled_back no_str_as_int ex_cls ex_failing_commit_env
              ex_fresh false [] _ H1) as (_ & Hrun).
  destruct (Hrun H3) as (Hr & _ & Hclean & Hprint & Hrb & _).
  split; [exact Hr|]. split; [exact (Hclean H2)|]. split; [exact Hprint | exact Hrb].
Defined.


(** C8, as stated, on the tracked and unchanged file without force: nothing
    changed and nothing is forced, the call returns [False], and yet the
    file is opened and parsed. *)
Lemma unchanged_import_still_opens_file :
  reconcile_changed (pending ex_tracked) (file_path ex_cls) "h1" false || false = false /\
  result ex_skipped_run = Returned false /\
  In (Open (file_path ex_cls)) (calls ex_skipped_run) /\
  calls ex_skipped_run
  = [Print (ImportingWeights Items); SelectFileMetadata "weights.yaml";
     GetFileHash "weights.yaml"; Open "weights.yaml"; Print DONE].
Proof.
  split; [reflexivity|]. split; [reflexivity|].
  split; [|reflexivity]. do 3 right. left. reflexivity.
Qed.

(** The order of the calls on the tracked, unchanged file (gate closed) and
    on a fresh store (gate open). *)
Lemma import_data_step_order_witness :
  get_file_hash ex_env (file_path ex_cls) = Some "h1"%string /\
  reconcile_changed (pending ex_tracked) (file_path ex_cls) "h1" (false || any [])
  || (false || any []) = false /\
  reconcile_changed (pending ex_fresh) (file_path ex_cls) "h1" (false || any [])
  || (false || any []) = true /\
  calls ex_skipped_run
  = Print (ImportingWeights (model ex_cls))
    :: reconcile_calls ex_cls ex_env (pending ex_tracked) (file_path ex_cls)
    ++ load_calls ex_env (file_path ex_cls) ++ [Print DONE] /\
  calls ex_first_run
  = Print (ImportingWeights (model ex_cls))
    :: reconcile_calls ex_cls ex_env (pending ex_fresh) (file_path ex_cls)
    ++ load_calls ex_env (file_path ex_cls)
    ++ gated_calls no_str_as_int ex_cls ex_env (pending ex_fresh)
                   (loaded_data ex_env (file_path ex_cls)).
Proof.
  unfold ex_first_run, ex_skipped_run.
  assert (H1 : get_file_hash ex_env (file_path ex_cls) = Some "h1"%string) by reflexivity.
  assert (H2 : reconcile_changed (pending ex_tracked) (file_path ex_cls) "h1"
                                 (false || any [])
               || (false || any []) = false) by reflexivity.
  assert (H3 : reconcile_changed (pending ex_fresh) (file_path ex_cls) "h1"
                                 (false || any [])
               || (false || any []) = true) by reflexivity.
  split; [exact H1|]. split; [exact H2|]. split; [exact H3|]. split.
  - destruct (proj2 (import_data_step_order no_str_as_int ex_cls ex_env ex_tracked false [])
                    _ H1) as (gated & Hcalls & _ & Hclosed & _).
    rewrite (Hclosed H2) in Hcalls. exact Hcalls.
  - destruct (proj2 (import_data_step_order no_str_as_int ex_cls ex_env ex_fresh false [])
                    _ H1) as (gated & Hcalls & _ & _ & Hopen).
    rewrite (Hopen H3) in Hcalls. exact Hcalls.
Defined.

(** The tracked, unchanged file with the explicit flag off: one true
    condition among the [force_conditions] forces the import, which then
    returns [True]; with every condition false the call is the unforced one
    and returns [False]. *)
Lemma run_returns_file_updated_witness :
  In true [false; true] /\
  (forall b, In b [false; false] -> b = false) /\
  get_file_hash ex_env (file_path ex_cls) = Some "h1"%string /\
  first_file_metadata (pending ex_tracked) (file_path ex_cls)
  = Some (FileMetadata.mk "weights.yaml" "h1" 50) /\
  SlugWeights_model_validate no_str_as_int (loaded_data ex_env (file_path ex_cls)) <> None /\
  run_weight_importer no_str_as_int ex_cls ex_env ex_tracked false [false; true]
  = run_weight_importer no_str_as_int ex_cls ex_env ex_tracked true [] /\
  result (run_weight_importer no_str_as_int ex_cls ex_env ex_tracked false [false; true])
  = Returned true /\
  run_weight_importer no_str_as_int ex_cls ex_env ex_tracked false [false; false]
  = run_weight_importer no_str_as_int ex_cls ex_env ex_tracked false [] /\
  result (run_weight_importer no_str_as_int ex_cls ex_env ex_tracked false [false; false])
  = Returned false.
Proof.
  assert (H1 : In true [false; true]) by (right; left; reflexivity).
  assert (H2 : forall b, In b [false; false] -> b = false)
    by (intros b [<-|[<-|[]]]; reflexivity).
  assert (H3 : get_file_hash ex_env (file_path ex_cls) = Some "h1"%string) by reflexivity.
  assert (H4 : first_file_metadata (pending ex_tracked) (file_path ex_cls)
               = Some (FileMetadata.mk "weights.yaml" "h1" 50)) by reflexivity.
  assert (H5 : SlugWeights_model_validate no_str_as_int
                 (loaded_data ex_env (file_path ex_cls)) <> None) by discriminate.
  split; [exact H1|]. split; [exact H2|]. split; [exact H3|]. split; [exact H4|].
  split; [exact H5|].
  destruct (run_returns_file_updated no_str_as_int ex_cls ex_env ex_tracked false
              [false; true]) as (Hforced & _ & Hflag).
  destruct (run_returns_file_updated no_str_as_int ex_cls ex_env ex_tracked false
              [false; false]) as (_ & Hunforced & Hflag').
  split; [exact (Hforced (or_intror H1))|].
  split.
  - destruct (Hflag _ H3) as (_ & Hret & _).
    apply Hret; [|exact H5].
    right. exists (FileMetadata.mk "weights.yaml" "h1" 50).
    split; [exact H4|]. right. right. exact H1.
  - split; [exact (Hunforced eq_refl H2)|].
    destruct (Hflag' _ H3) as (_ & _ & _ & Hskip).
    apply Hskip.
    intros [Hnone|(existing & Hfind & [Hhash|[Hforce|Hin]])].
    + rewrite H4 in Hnone. discriminate Hnone.
    + rewrite H4 in Hfind. injection Hfind as <-. now apply Hhash.
    + discriminate Hforce.
    + specialize (H2 _ Hin). discriminate H2.
Defined.

(** * Further properties of the importer *)

(** ** Validation *)

Lemma SlugWeight_model_validate_inv str_as_int v d :
  SlugWeight_model_validate str_as_int v = Some d ->
  exists m s w,
    v = YMap m /\
    dict_get "slug" m = Some (YStr s) /\
    dict_get "weight" m = Some w /\
    lax_int str_as_int w = Some (SlugWeight.weight d) /\
    SlugWeight.slug d = s /\
    0 <= SlugWeight.weight d.
Proof.
  unfold SlugWeight_model_validate.
  destruct v as [| | | |l|m]; try discriminate.
  destruct (dict_get "slug" m) as [s|] eqn:Hs; [|discriminate].
  destruct (dict_get "weight" m) as [w|] eqn:Hw; [|discriminate].
  destruct s as [| | |s| |]; cbn; try discriminate.
  destruct (lax_int str_as_int w) as [z|] eqn:Hz; [|discriminate].
  destruct (Z.leb_spec 0 z); [|discriminate].
  intros [= <-]. exists m, s, w. cbn. repeat split; auto.
Qed.

(** X1. Whatever [validate_data] returns is a list with one entry per
    element of the input sequence, in order, each read off a mapping with a
    string [slug] and a [weight] that reads as a non-negative integer; the
    session is not touched. *)
Theorem validate_data_returns_wellformed_entries :
  forall str_as_int data w validated w',
    validate_data str_as_int data w = (Returned validated, w') ->
    session_of w' = session_of w /\
    exists l,
      data = YSeq l /\
      List.length validated = List.length l /\
      Forall (fun d => 0 <= SlugWeight.weight d) validated /\
      Forall2 (fun v d =>
                 exists m s x,
                   v = YMap m /\
                   dict_get "slug" m = Some (YStr s) /\
                   dict_get "weight" m = Some x /\
                   lax_int str_as_int x = Some (SlugWeight.weight d) /\
                   SlugWeight.slug d = s) l validated.
Proof.
  intros str_as_int data w validated w' Hrun.
  unfold validate_data in Hrun. unfold_monad. cbn in Hrun.
  destruct data as [| | | |l|m]; cbn in Hrun; try discriminate.
  destruct (validate_all str_as_int l) as [v|] eqn:Hv; cbn in Hrun; [|discriminate].
  injection Hrun as <- <-. split; [reflexivity|].
  exists l. split; [reflexivity|].
  revert v Hv. induction l as [|y l IH]; intros v Hv; cbn in Hv.
  - injection Hv as <-. repeat split; constructor.
  - destruct (SlugWeight_model_validate str_as_int y) as [d|] eqn:Hd; [|discriminate].
    destruct (validate_all str_as_int l) as [ds|]; [|discriminate].
    injection Hv as <-.
    destruct (IH ds eq_refl) as (Hlen & Hpos & Hall).
    destruct (SlugWeight_model_validate_inv _ _ _ Hd)
      as (m & s & x & -> & Hs & Hx & Hz & Hslug & Hge).
    split; [cbn; now rewrite Hlen|]. split; [now constructor|].
    constructor; [|exact Hall]. exists m, s, x. repeat split; assumption.
Qed.

(** ** Weights stay non-negative *)

Lemma validate_all_nonneg str_as_int l :
  forall v, validate_all str_as_int l = Some v ->
            Forall (fun d => 0 <= SlugWeight.weight d) v.
Proof.
  induction l as [|y l IH]; intros v Hv; cbn in Hv.
  - injection Hv as <-. constructor.
  - destruct (SlugWeight_model_validate str_as_int y) as [d|] eqn:Hd; [|discriminate].
    destruct (validate_all str_as_int l) as [ds|]; [|discriminate].
    injection Hv as <-.
    destruct (SlugWeight_model_validate_inv _ _ _ Hd) as (m & s & x & _ & _ & _ & _ & _ & Hge).
    constructor; [exact Hge | now apply IH].
Qed.

Lemma SlugWeights_model_validate_nonneg str_as_int data v :
  SlugWeights_model_validate str_as_int data = Some v ->
  Forall (fun d => 0 <= SlugWeight.weight d) v.
Proof.
  destruct data; cbn; try discriminate. apply validate_all_nonneg.
Qed.

Lemma mapping_of_nonneg cls validated item :
  Forall (fun d => 0 <= SlugWeight.weight d) validated ->
  0 <= Mapping.weight (mapping_of cls validated item).
Proof.
  intros Hpos. unfold mapping_of, matching_data. cbn.
  destruct (find _ validated) as [d|] eqn:Hfind; [|lia].
  apply find_some in Hfind. destruct Hfind as [Hin _].
  rewrite Forall_forall in Hpos. now apply Hpos.
Qed.

Lemma build_mappings_nonneg cls items validated :
  Forall (fun d => 0 <= SlugWeight.weight d) validated ->
  Forall (fun m => 0 <= Mapping.weight m) (build_mappings cls items validated).
Proof.
  intros Hpos. rewrite build_mappings_map. apply Forall_forall.
  intros m Hm. apply in_map_iff in Hm. destruct Hm as (item & <- & _).
  now apply mapping_of_nonneg.
Qed.

Lemma fold_update_row_nonneg mappings :
  Forall (fun m => 0 <= Mapping.weight m) mappings ->
  forall r, 0 <= Entity.weight r ->
            0 <= Entity.weight (fold_left update_row mappings r).
Proof.
  induction mappings as [|m mappings IH]; intros Hpos r Hr; cbn; [exact Hr|].
  inversion Hpos as [|? ? Hm Hrest]; subst.
  apply IH; [exact Hrest|].
  unfold update_row. destruct (Entity.id r =? Mapping.id m); [exact Hm | exact Hr].
Qed.

Lemma rows_applied_db_other cls validated db t :
  t <> update_class cls ->
  rows (applied_db cls validated db) t = rows db t.
Proof.
  intros Ht. unfold applied_db.
  destruct (update_class cls); destruct t; try reflexivity; contradiction.
Qed.

Lemma nonneg_weights_applied_db cls validated db :
  Forall (fun d => 0 <= SlugWeight.weight d) validated ->
  nonneg_weights db ->
  nonneg_weights (applied_db cls validated db).
Proof.
  intros Hpos Hdb t row Hrow.
  assert (Hdec : t = update_class cls \/ t <> update_class cls)
    by (destruct t; destruct (update_class cls); (now left) || (right; discriminate)).
  destruct Hdec as [->|Ht].
  - rewrite rows_applied_db, bulk_update_map in Hrow.
    apply in_map_iff in Hrow. destruct Hrow as (row0 & <- & Hrow0).
    apply fold_update_row_nonneg; [now apply build_mappings_nonneg|].
    now apply (Hdb (update_class cls)).
  - rewrite rows_applied_db_other in Hrow by exact Ht. now apply (Hdb t).
Qed.

Lemma nonneg_weights_reconciled_db cls env path h force db :
  nonneg_weights db -> nonneg_weights (reconciled_db cls env path h force db).
Proof.
  intros Hdb t row Hrow. rewrite rows_reconciled_db in Hrow. now apply (Hdb t).
Qed.

(** The only bulk UPDATE among the calls of an import is the one built
    from the validated data. *)
Lemma import_calls_update_inv str_as_int cls env s force t mappings :
  In (ExecuteUpdate t mappings) (import_calls str_as_int cls env s force) ->
  exists validated,
    SlugWeights_model_validate str_as_int (loaded_data env (file_path cls)) = Some validated /\
    t = update_class cls /\
    mappings = build_mappings cls (loaded_items cls (pending s)) validated.
Proof.
  unfold import_calls, reconcile_calls, load_calls, gated_calls, commit_calls.
  intros Hin.
  destruct (get_file_hash env (file_path cls)) as [h|];
    [|destruct (first_file_metadata (pending s) (file_path cls));
      cbn in Hin; repeat destruct Hin as [Hin|Hin]; try discriminate Hin; destruct Hin].
  destruct (SlugWeights_model_validate str_as_int (loaded_data env (file_path cls)))
    as [validated|].
  - exists validated. split; [reflexivity|].
    destruct (first_file_metadata (pending s) (file_path cls));
      destruct (safe_load env (file_path cls));
      destruct (reconcile_changed (pending s) (file_path cls) h force || force);
      destruct (commit_error env);
      cbn in Hin; repeat destruct Hin as [Hin|Hin]; try discriminate Hin;
      try (destruct Hin; fail); injection Hin as <- <-; split; reflexivity.
  - exfalso.
    destruct (first_file_metadata (pending s) (file_path cls));
      destruct (safe_load env (file_path cls));
      destruct (reconcile_changed (pending s) (file_path cls) h force || force);
      cbn in Hin; repeat destruct Hin as [Hin|Hin]; try discriminate Hin; destruct Hin.
Qed.

(** X3. No import ever sends a negative weight to the store: every
    parameter dictionary of every bulk update among its calls carries a
    weight that is at least 0. *)
Theorem no_negative_weight_is_written :
  forall str_as_int cls env s force force_conditions t mappings,
    In (ExecuteUpdate t mappings)
       (calls (run_weight_importer str_as_int cls env s force force_conditions)) ->
    Forall (fun m => 0 <= Mapping.weight m) mappings.
Proof.
  intros str_as_int cls env s force fc t mappings Hin.
  rewrite run_weight_importer_unfold in Hin. cbn [calls] in Hin.
  destruct (import_calls_update_inv _ _ _ _ _ _ _ Hin) as (validated & Hv & _ & ->).
  apply build_mappings_nonneg. now apply SlugWeights_model_validate_nonneg with (1 := Hv).
Qed.

(** X4. Non-negative weights are an invariant of the store under imports:
    when no entity row of the session, committed or pending, has a negative
    weight before a call, none has one afterwards, however the call
    ends. *)
Theorem imports_keep_weights_nonnegative :
  forall str_as_int cls env s force force_conditions,
    nonneg_weights (committed s) ->
    nonneg_weights (pending s) ->
    let r := run_weight_importer str_as_int cls env s force force_conditions in
    nonneg_weights (committed (session_after r)) /\
    nonneg_weights (pending (session_after r)).
Proof.
  intros str_as_int cls env s force fc Hc Hp r. subst r.
  rewrite run_weight_importer_unfold. cbn [session_after].
  unfold import_session.
  destruct (get_file_hash env (file_path cls)) as [h|]; [|now split].
  set (f := force || any fc).
  pose proof (nonneg_weights_reconciled_db cls env (file_path cls) h f _ Hp) as Hrec.
  destruct (reconcile_changed (pending s) (file_path cls) h f || f); cbn; [|now split].
  destruct (SlugWeights_model_validate str_as_int (loaded_data env (file_path cls)))
    as [validated|] eqn:Hv; cbn; [|now split].
  pose proof (nonneg_weights_applied_db cls validated _
                (SlugWeights_model_validate_nonneg _ _ _ Hv) Hrec) as Happ.
  destruct (commit_error env); cbn; now split.
Qed.

(** ** Documents that are not a sequence, files that cannot be hashed *)

(** X5. When the file parses to anything but a sequence (an empty file
    parses to [None]), a call that is triggered prints the validation
    diagnostic and raises [ValidationError]: unlike a file that fails to
    parse, it does not reset the weights; no update is issued, no commit
    attempted, the committed store is as before. *)
Theorem non_sequence_document_aborts :
  forall str_as_int cls env s force force_conditions data h,
    safe_load env (file_path cls) = Loaded data ->
    (forall l, data <> YSeq l) ->
    get_file_hash env (file_path cls) = Some h ->
    reconcile_changed (pending s) (file_path cls) h (force || any force_conditions) = true ->
    let r := run_weight_importer str_as_int cls env s force force_conditions in
    result r = Raised ValidationError /\
    In (Print ValidationErrorMsg) (calls r) /\
    issues_update (calls r) = false /\
    attempts_commit (calls r) = false /\
    committed (session_after r) = committed s.
Proof.
  intros str_as_int cls env s force fc data h Hload Hdata Hh Hc r. subst r.
  assert (Hloaded : loaded_data env (file_path cls) = data)
    by (unfold loaded_data; now rewrite Hload).
  assert (Hv : SlugWeights_model_validate str_as_int data = None).
  { destruct data as [| | | |l|m]; try reflexivity. now destruct (Hdata l). }
  rewrite run_weight_importer_unfold. cbn [result calls session_after].
  destruct (import_calls_reach str_as_int cls env s (force || any fc)) as [Hu Hcm].
  rewrite Hu, Hcm, Hh, Hloaded, Hv, andb_false_r. clear Hu Hcm.
  unfold import_result, import_session, import_calls.
  rewrite Hh, Hloaded, Hv, Hc. cbn [orb].
  split; [reflexivity|]. split; [|repeat split].
  right. apply in_or_app. right. apply in_or_app. right.
  unfold gated_calls. rewrite Hv. cbn. right. right. left. reflexivity.
Qed.

(** X6. When the file cannot be hashed, the call raises before anything
    else happens: the exception leaves [run_weight_importer], the session
    is exactly as before, the file is never opened and [DONE] never
    printed; the only calls are the progress line, the lookup of the
    record and the hashing. *)
Theorem unhashable_file_aborts_untouched :
  forall str_as_int cls env s force force_conditions,
    get_file_hash env (file_path cls) = None ->
    let r := run_weight_importer str_as_int cls env s force force_conditions in
    result r = Raised FileHashError /\
    session_after r = s /\
    calls r = [Print (ImportingWeights (model cls));
               SelectFileMetadata (file_path cls);
               GetFileHash (file_path cls)].
Proof.
  intros str_as_int cls env s force fc Hh r. subst r.
  rewrite run_weight_importer_unfold.
  unfold import_result, import_session, import_calls, reconcile_calls.
  rewrite Hh. cbn. repeat split.
Qed.

(** ** The reconcile step *)

Lemma find_touch_other path path' h ts l :
  path' <> path ->
  find (fun r => (FileMetadata.filename r =? path')%string) (touch path h ts l)
  = find (fun r => (FileMetadata.filename r =? path')%string) l.
Proof.
  intros Hne. induction l as [|r l IH]; cbn; [reflexivity|].
  destruct (String.eqb_spec (FileMetadata.filename r) path) as [E|NE]; cbn.
  - rewrite E. destruct (String.eqb_spec path path') as [E'|_]; [|reflexivity].
    now destruct Hne.
  - now rewrite IH.
Qed.

Lemma find_snoc_other path path' h ts l :
  path' <> path ->
  find (fun r => (FileMetadata.filename r =? path')%string)
       (l ++ [FileMetadata.mk path h ts])
  = find (fun r => (FileMetadata.filename r =? path')%string) l.
Proof.
  intros Hne. induction l as [|r l IH]; cbn.
  - destruct (String.eqb_spec path path') as [E|_]; [|reflexivity]. now destruct Hne.
  - now rewrite IH.
Qed.

Lemma first_file_metadata_reconciled_other cls env path path' h force db :
  path' <> path ->
  first_file_metadata (reconciled_db cls env path h force db) path'
  = first_file_metadata db path'.
Proof.
  intros Hne. unfold reconciled_db, first_file_metadata.
  destruct (find _ (file_metadata_table db)) as [existing|].
  - destruct (negb (FileMetadata.hash existing =? h)%string || force); cbn;
      [now apply find_touch_other | reflexivity].
  - cbn. now apply find_snoc_other.
Qed.

(** X7. Whenever the reconcile step returns, the transaction holds a
    record for the path, that record carries the current hash of the file,
    and it is the one the importer keeps in [self.file_metadata]. *)
Theorem reconcile_stores_current_hash :
  forall cls env path force w h,
    get_file_hash env path = Some h ->
    exists w' r,
      handle_file_metadata cls env path force w = (Returned tt, w') /\
      first_file_metadata (pending (session_of w')) path = Some r /\
      file_metadata (self w') = Some r /\
      FileMetadata.filename r = path /\
      FileMetadata.hash r = h.
Proof.
  intros cls env path force w h Hh.
  destruct w as [[[c p] fu fm yf its] tr].
  unfold handle_file_metadata, call_get_file_hash, session_of.
  unfold_monad. cbn. rewrite Hh. cbn.
  destruct (first_file_metadata p path) as [existing|] eqn:Hfind; cbn.
  - assert (Hname : FileMetadata.filename existing = path).
    { unfold first_file_metadata in Hfind. apply find_some in Hfind.
      now apply String.eqb_eq. }
    destruct (negb (FileMetadata.hash existing =? h)%string || force) eqn:Hc; cbn.
    + unfold first_file_metadata in Hfind.
      rewrite (find_touch _ h (datetime_now env) _ _ Hfind). cbn.
      eexists. eexists. split; [reflexivity|]. cbn.
      unfold first_file_metadata. cbn.
      rewrite (find_touch _ h (datetime_now env) _ _ Hfind).
      repeat split. exact Hname.
    + rewrite Hfind. cbn.
      eexists. eexists. split; [reflexivity|]. cbn.
      split; [exact Hfind|]. split; [reflexivity|]. split; [exact Hname|].
      apply orb_false_elim in Hc. destruct Hc as [Hc _].
      apply negb_false_iff in Hc. now apply String.eqb_eq.
  - eexists. eexists. split; [reflexivity|]. cbn.
    unfold first_file_metadata in *. cbn.
    rewrite (find_snoc_new _ h (datetime_now env) _ Hfind). repeat split.
Qed.

(** X8. The reconcile step touches nothing but the record of its own path:
    the record found for any other path, the entity tables and the
    committed store are as before, the loaded rows are kept, and a
    [file_updated] flag that is already set stays set. *)
Theorem reconcile_leaves_the_rest_alone :
  forall cls env path force w,
    let w' := snd (handle_file_metadata cls env path force w) in
    (forall path',
        path' <> path ->
        first_file_metadata (pending (session_of w')) path'
        = first_file_metadata (pending (session_of w)) path') /\
    (forall t, rows (pending (session_of w')) t = rows (pending (session_of w)) t) /\
    committed (session_of w') = committed (session_of w) /\
    items (self w') = items (self w) /\
    (file_updated (self w) = true -> file_updated (self w') = true).
Proof.
  intros cls env path force w w'. subst w'.
  destruct (handle_file_metadata_run cls env path force w) as (fm & yf & E).
  rewrite E. clear E.
  destruct (get_file_hash env path) as [h|]; cbn.
  - unfold session_of. cbn.
    split; [intros path' Hne; now apply first_file_metadata_reconciled_other|].
    split; [intros t; apply rows_reconciled_db|].
    split; [reflexivity|]. split; [reflexivity|].
    intros ->. now destruct (reconcile_changed _ _ _ _).
  - repeat split. intros ->. reflexivity.
Qed.

(** X9. The flag [file_updated] is never cleared: an import run on an
    importer whose flag is already set (after an earlier import on the same
    instance) passes the gate even though the call is unforced, whether or
    not the file changed, and issues the bulk update as soon as the file
    can be hashed and its data validates. *)
Theorem file_updated_is_sticky :
  forall str_as_int cls env w h validated,
    file_updated (self w) = true ->
    get_file_hash env (file_path cls) = Some h ->
    SlugWeights_model_validate str_as_int (loaded_data env (file_path cls))
    = Some validated ->
    exists w',
      import_data str_as_int cls env false w = (Returned tt, w') /\
      file_updated (self w') = true /\
      In (ExecuteUpdate (update_class cls)
                        (build_mappings cls (loaded_items cls (pending (session_of w)))
                                        validated))
         (trace w') /\
      In Commit (trace w').
Proof.
  intros str_as_int cls env w h validated Hfu Hh Hv.
  destruct (handle_file_metadata_run cls env (file_path cls) false
              (mkWorld (self w) (trace w ++ [Print (ImportingWeights (model cls))])))
    as (fm & yf & E).
  rewrite Hh in E. cbn [self trace] in E.
  unfold import_data, load_yaml_data. unfold_monad.
  cbn -[handle_file_metadata reconcile_calls]. rewrite E. clear E.
  unfold loaded_data in Hv.
  unfold session_of. cbn -[reconcile_calls]. rewrite Hfu.
  assert (Hgate : (if reconcile_changed (pending (db_session (self w))) (file_path cls) h false
                   then true else true) || false = true)
    by now destruct (reconcile_changed _ _ _ _).
  destruct (safe_load env (file_path cls)) as [data|e];
    cbn -[reconcile_calls]; rewrite Hgate;
    unfold validate_data, process_data, execute_update, commit_changes;
    unfold_monad; cbn -[reconcile_calls]; cbn in Hv;
    [rewrite Hv | injection Hv as <-];
    cbn -[reconcile_calls]; rewrite rows_reconciled_db;
    (destruct (commit_error env); cbn -[reconcile_calls];
     (eexists; split; [reflexivity|]; cbn -[reconcile_calls];
      split; [now destruct (reconcile_changed _ _ _ _)|];
      split; rewrite ?in_app_iff; cbn; tauto)).
Qed.

(** ** What the weight applier changes, and what it leaves *)

Lemma update_row_slug_fk r m :
  Entity.slug (update_row r m) = Entity.slug r /\
  Entity.fk (update_row r m) = Entity.fk r.
Proof. unfold update_row. now destruct (Entity.id r =? Mapping.id m). Qed.

Lemma fold_update_row_slug_fk mappings :
  forall r,
    Entity.slug (fold_left update_row mappings r) = Entity.slug r /\
    Entity.fk (fold_left update_row mappings r) = Entity.fk r.
Proof.
  induction mappings as [|m mappings IH]; intros r; cbn; [now split|].
  destruct (IH (update_row r m)) as [-> ->]. apply update_row_slug_fk.
Qed.

(** A row after the bulk UPDATE: the row it was, with the weight of the
    last dictionary that names it. *)
Lemma fold_update_row_last mappings :
  forall r,
    fold_left update_row mappings r
    = match find (fun m => Entity.id r =? Mapping.id m) (rev mappings) with
      | Some m => set_weight r (Mapping.weight m)
      | None => r
      end.
Proof.
  induction mappings as [|m mappings IH] using rev_ind; intros r; [reflexivity|].
  rewrite fold_left_app, rev_app_distr. cbn.
  unfold update_row at 1. rewrite fold_update_row_id.
  destruct (Entity.id r =? Mapping.id m); [|apply IH].
  destruct (fold_update_row_slug_fk mappings r) as [-> ->].
  reflexivity.
Qed.

Lemma process_data_session cls items validated w :
  session_of (snd (process_data cls items validated w))
  = mkSession (committed (session_of w))
              (set_rows (pending (session_of w)) (update_class cls)
                        (bulk_update (build_mappings cls items validated)
                                     (rows (pending (session_of w)) (update_class cls)))).
Proof. reflexivity. Qed.

Lemma rows_set_rows db t l : rows (set_rows db t l) t = l.
Proof. now destruct t. Qed.

Lemma rows_set_rows_other db t t' l : t' <> t -> rows (set_rows db t l) t' = rows db t'.
Proof. destruct t; destruct t'; intros H; try reflexivity; now destruct H. Qed.

(** X10. The weight applier only rewrites weights of rows its records
    name: in the updated table the primary keys, slugs and other columns
    are as before, row for row, so no row is created, deleted or moved;
    a row whose key no loaded row carries is left exactly as it was; the
    other entity table and the committed store are not touched. *)
Theorem process_data_only_rewrites_named_weights :
  forall cls items validated w,
    let w' := snd (process_data cls items validated w) in
    let before := rows (pending (session_of w)) (update_class cls) in
    let after := rows (pending (session_of w')) (update_class cls) in
    map Entity.id after = map Entity.id before /\
    map Entity.slug after = map Entity.slug before /\
    map Entity.fk after = map Entity.fk before /\
    (forall i row,
        nth_error before i = Some row ->
        ~ In (Entity.id row) (map (key cls) items) ->
        nth_error after i = Some row) /\
    (forall t, t <> update_class cls ->
               rows (pending (session_of w')) t = rows (pending (session_of w)) t) /\
    committed (session_of w') = committed (session_of w).
Proof.
  intros cls items validated w w' before after. subst w' before after.
  rewrite process_data_session. cbn [pending committed].
  rewrite rows_set_rows, bulk_update_map, !map_map.
  split; [apply map_ext; intros r; apply fold_update_row_id|].
  split; [apply map_ext; intros r; apply fold_update_row_slug_fk|].
  split; [apply map_ext; intros r; apply fold_update_row_slug_fk|].
  split; [|split; [|reflexivity]].
  - intros i row Hnth Hnot.
    rewrite nth_error_map, Hnth. cbn. f_equal.
    apply fold_update_row_other.
    rewrite build_mappings_map, map_map. exact Hnot.
  - intros t Ht. now apply rows_set_rows_other.
Qed.

(** X11. When several loaded rows carry the same key (rows sharing a
    parent), the last of them in row order decides: after [process_data]
    every row of the updated table with that key holds the weight resolved
    for the last loaded row carrying it, also when that weight is the 0 of
    an unmatched slug and an earlier row had a match. *)
Theorem last_row_with_key_wins :
  forall cls before item after validated w row,
    (forall item', In item' after -> key cls item' <> key cls item) ->
    In row (rows (pending (session_of
              (snd (process_data cls (before ++ item :: after) validated w))))
                 (update_class cls)) ->
    Entity.id row = key cls item ->
    Entity.weight row = Mapping.weight (mapping_of cls validated item).
Proof.
  intros cls before item after validated w row Hafter Hrow Hid.
  rewrite process_data_session in Hrow. cbn [pending] in Hrow.
  rewrite rows_set_rows, bulk_update_map in Hrow.
  apply in_map_iff in Hrow. destruct Hrow as (row0 & <- & _).
  rewrite fold_update_row_id in Hid.
  rewrite build_mappings_map, map_app. cbn [map].
  rewrite fold_left_app. cbn [fold_left].
  rewrite fold_update_row_other.
  - unfold update_row. rewrite fold_update_row_id.
    replace (Mapping.id (mapping_of cls validated item)) with (key cls item) by reflexivity.
    rewrite Hid, Z.eqb_refl. reflexivity.
  - rewrite update_row_id, fold_update_row_id, map_map, Hid.
    intros Hin. apply in_map_iff in Hin. destruct Hin as (item' & Hk & Hin).
    now apply (Hafter item' Hin).
Qed.

(** X12. Applying the same validated data to the same rows twice leaves
    the session exactly as applying it once. *)
Theorem process_data_is_idempotent :
  forall cls items validated w,
    session_of (snd (process_data cls items validated
                                  (snd (process_data cls items validated w))))
    = session_of (snd (process_data cls items validated w)).
Proof.
  intros cls items validated w.
  rewrite !process_data_session. cbn [pending committed].
  rewrite rows_set_rows. f_equal.
  set (ms := build_mappings cls items validated).
  assert (E : bulk_update ms (bulk_update ms (rows (pending (session_of w)) (update_class cls)))
              = bulk_update ms (rows (pending (session_of w)) (update_class cls))).
  { rewrite !bulk_update_map, map_map. apply map_ext. intros r.
    rewrite (fold_update_row_last ms (fold_left update_row ms r)), fold_update_row_id.
    rewrite (fold_update_row_last ms r).
    destruct (find _ (rev ms)); reflexivity. }
  rewrite E. destruct (update_class cls); reflexivity.
Qed.

Lemma unique_fresh l :
  forall seen,
    NoDup (map Entity.id l) ->
    (forall r, In r l -> ~ In (Entity.id r) seen) ->
    unique seen l = l.
Proof.
  induction l as [|r l IH]; intros seen Hnd Hfresh; [reflexivity|].
  cbn. inversion Hnd as [|? ? Hr Hnd']; subst.
  destruct (existsb (Z.eqb (Entity.id r)) seen) eqn:Hseen.
  - exfalso. apply existsb_exists in Hseen. destruct Hseen as (z & Hz & E).
    apply Z.eqb_eq in E. subst z. apply (Hfresh r); [now left | exact Hz].
  - f_equal. apply IH; [exact Hnd'|].
    intros r' Hr' [E|Hin].
    + apply Hr. rewrite E. now apply in_map.
    + apply (Hfresh r'); [now right | exact Hin].
Qed.

(** X13. When the weights are stored on the rows themselves and the
    primary keys of the table are distinct, loading and applying rewrites
    the table row by row: each row keeps its place and its columns and
    takes the weight of the first validated entry with its slug, 0 when
    there is none. *)
Theorem apply_rewrites_each_row :
  forall cls validated w,
    parent_model cls = None ->
    NoDup (map Entity.id (rows (pending (session_of w)) (model cls))) ->
    let items := loaded_items cls (pending (session_of w)) in
    rows (pending (session_of (snd (process_data cls items validated w)))) (model cls)
    = map (fun row =>
             set_weight row
                        (match matching_data validated row with
                         | Some data => SlugWeight.weight data
                         | None => 0
                         end))
          (rows (pending (session_of w)) (model cls)).
Proof.
  intros cls validated w Hparent Hnd items. subst items.
  assert (Huc : update_class cls = model cls)
    by (unfold update_class; now rewrite Hparent).
  rewrite process_data_session. cbn [pending]. rewrite Huc, rows_set_rows.
  unfold loaded_items. rewrite (unique_fresh _ [] Hnd) by (intros r _ []).
  set (l := rows (pending (session_of w)) (model cls)) in *.
  rewrite bulk_update_map. apply map_ext_in. intros r Hr.
  assert (Hkey : forall item, Mapping.id (mapping_of cls validated item) = Entity.id item)
    by (intros item; unfold mapping_of, key; now rewrite Hparent).
  assert (Hids : map Mapping.id (build_mappings cls l validated) = map Entity.id l).
  { rewrite build_mappings_map, map_map. apply map_ext. exact Hkey. }
  assert (Hw : Entity.weight (fold_left update_row (build_mappings cls l validated) r)
               = Mapping.weight (mapping_of cls validated r)).
  { apply fold_update_row_weight.
    - now rewrite Hids.
    - rewrite build_mappings_map. now apply in_map.
    - now rewrite Hkey. }
  pose proof (fold_update_row_id (build_mappings cls l validated) r) as Hi.
  destruct (fold_update_row_slug_fk (build_mappings cls l validated) r) as [Hs Hf].
  destruct (fold_left update_row (build_mappings cls l validated) r) as [i s x f].
  cbn in *. subst. reflexivity.
Qed.

(** ** What the returned flag tells the caller *)

(** X14. A call that returns [False] has done nothing: the session is
    exactly as before, no record was added, no update issued, no commit
    attempted; and it returns [False] only when the call was not forced and
    a record for the path already carried the current hash. *)
Theorem returning_false_means_untouched :
  forall str_as_int cls env s force force_conditions,
    let r := run_weight_importer str_as_int cls env s force force_conditions in
    result r = Returned false ->
    session_after r = s /\
    filter is_add (calls r) = [] /\
    issues_update (calls r) = false /\
    attempts_commit (calls r) = false /\
    force || any force_conditions = false /\
    exists existing,
      first_file_metadata (pending s) (file_path cls) = Some existing /\
      get_file_hash env (file_path cls) = Some (FileMetadata.hash existing).
Proof.
  intros str_as_int cls env s force fc r Hres. subst r.
  rewrite run_weight_importer_unfold in *. cbn [result calls session_after] in *.
  set (f := force || any fc) in *.
  rewrite import_calls_adds.
  destruct (import_calls_reach str_as_int cls env s f) as [-> ->].
  unfold import_result, import_session in *.
  destruct (get_file_hash env (file_path cls)) as [h|]; [|discriminate].
  rewrite gate_is_changed in *.
  destruct (reconcile_changed (pending s) (file_path cls) h f) eqn:Hc.
  { destruct (SlugWeights_model_validate str_as_int (loaded_data env (file_path cls)));
      discriminate. }
  unfold reconcile_changed in Hc.
  destruct (first_file_metadata (pending s) (file_path cls)) as [existing|] eqn:Hfind;
    [|discriminate].
  apply orb_false_elim in Hc. destruct Hc as [Hhash Hf].
  apply negb_false_iff, String.eqb_eq in Hhash. subst h.
  destruct (reconcile_unchanged cls env _ _ _ Hfind) as [_ Hdb].
  rewrite Hf in *. rewrite Hdb.
  split; [now destruct s|]. repeat split.
  exists existing. now split.
Qed.

(** X15. A call that returns [True] has validated the data, issued the
    bulk update and attempted the commit, and it leaves a session without
    pending changes: after a successful commit the committed table holds
    the updated rows, after a failed one the committed store is as
    before. *)
Theorem returning_true_means_applied :
  forall str_as_int cls env s force force_conditions,
    let r := run_weight_importer str_as_int cls env s force force_conditions in
    result r = Returned true ->
    issues_update (calls r) = true /\
    attempts_commit (calls r) = true /\
    committed (session_after r) = pending (session_after r) /\
    exists validated,
      SlugWeights_model_validate str_as_int (loaded_data env (file_path cls))
      = Some validated /\
      (commit_error env = None ->
       rows (committed (session_after r)) (update_class cls)
       = bulk_update (build_mappings cls (loaded_items cls (pending s)) validated)
                     (rows (pending s) (update_class cls))) /\
      (forall e, commit_error env = Some e ->
                 committed (session_after r) = committed s).
Proof.
  intros str_as_int cls env s force fc r Hres. subst r.
  rewrite run_weight_importer_unfold in *. cbn [result calls session_after] in *.
  set (f := force || any fc) in *.
  destruct (import_calls_reach str_as_int cls env s f) as [-> ->].
  unfold import_result, import_session in *.
  destruct (get_file_hash env (file_path cls)) as [h|]; [|discriminate].
  rewrite gate_is_changed in *.
  destruct (reconcile_changed (pending s) (file_path cls) h f); [|discriminate].
  destruct (SlugWeights_model_validate str_as_int (loaded_data env (file_path cls)))
    as [validated|]; [|discriminate].
  split; [reflexivity|]. split; [reflexivity|].
  split; [now destruct (commit_error env)|].
  exists validated. split; [reflexivity|]. split.
  - intros ->. cbn. rewrite rows_applied_db. unfold loaded_items.
    now rewrite !rows_reconciled_db.
  - intros e ->. reflexivity.
Qed.

(** X16. The progress line comes first in every call, and [DONE] is
    printed exactly when the call returns, as its last output: a call that
    raises never prints it. *)
Theorem done_is_printed_iff_returned :
  forall str_as_int cls env s force force_conditions,
    let r := run_weight_importer str_as_int cls env s force force_conditions in
    (exists rest, calls r = Print (ImportingWeights (model cls)) :: rest) /\
    (In (Print DONE) (calls r) <-> exists b, result r = Returned b) /\
    (forall b, result r = Returned b -> exists before, calls r = before ++ [Print DONE]).
Proof.
  intros str_as_int cls env s force fc r. subst r.
  rewrite run_weight_importer_unfold. cbn [result calls].
  set (f := force || any fc).
  split; [eexists; reflexivity|].
  unfold import_result, import_calls, reconcile_calls, load_calls, gated_calls,
    commit_calls.
  destruct (get_file_hash env (file_path cls)) as [h|].
  2:{ split; [split|].
      - destruct (first_file_metadata (pending s) (file_path cls)); cbn;
          intros H; repeat destruct H as [H|H]; try discriminate H; destruct H.
      - intros [b [=]].
      - intros b [=]. }
  rewrite gate_is_changed.
  destruct (SlugWeights_model_validate str_as_int (loaded_data env (file_path cls)));
    destruct (first_file_metadata (pending s) (file_path cls));
    destruct (safe_load env (file_path cls));
    destruct (reconcile_changed (pending s) (file_path cls) h f);
    destruct (commit_error env); cbn.
  all: split; [split; [intros Hin | intros [b Hb]] | intros b Hb].
  all: try discriminate Hb.
  all: try (eexists; reflexivity).
  all: try (exfalso; repeat destruct Hin as [Hin|Hin]; try discriminate Hin;
            now destruct Hin).
  all: try (clear Hb; repeat (first [left; reflexivity | right])).
  all: match goal with
       | |- exists before, ?a :: ?l = _ =>
           exists (removelast (a :: l)); reflexivity
       end.
Qed.

(** X17. A validation failure is not rolled back: the call raises with the
    committed store as before, but the fingerprint record with the new hash
    stays in the open transaction.  A later unforced call on the same
    session and the same file therefore finds the file unchanged: it
    returns [False] and does not validate the data again. *)
Theorem validation_failure_keeps_fingerprint :
  forall str_as_int cls env env' s force force_conditions force_conditions' h,
    get_file_hash env (file_path cls) = Some h ->
    reconcile_changed (pending s) (file_path cls) h (force || any force_conditions)
    = true ->
    SlugWeights_model_validate str_as_int (loaded_data env (file_path cls)) = None ->
    let r := run_weight_importer str_as_int cls env s force force_conditions in
    result r = Raised ValidationError /\
    committed (session_after r) = committed s /\
    (exists record,
        first_file_metadata (pending (session_after r)) (file_path cls) = Some record /\
        FileMetadata.hash record = h) /\
    (get_file_hash env' (file_path cls) = Some h ->
     any force_conditions' = false ->
     let r' := run_weight_importer str_as_int cls env' (session_after r)
                                   false force_conditions' in
     result r' = Returned false /\
     session_after r' = session_after r /\
     forall data, ~ In (ModelValidate data) (calls r')).
Proof.
  intros str_as_int cls env env' s force fc fc' h Hh Hc Hv r.
  assert (Hsess : session_after r
                  = mkSession (committed s)
                              (reconciled_db cls env (file_path cls) h (force || any fc)
                                             (pending s))).
  { subst r. rewrite run_weight_importer_unfold. cbn [session_after].
    unfold import_session. rewrite Hh, Hc, Hv. reflexivity. }
  assert (Hres : result r = Raised ValidationError).
  { subst r. rewrite run_weight_importer_unfold. cbn [result].
    unfold import_result. rewrite Hh, Hc, Hv. reflexivity. }
  destruct (reconciled_db_record cls env (file_path cls) h (force || any fc) (pending s))
    as (record & Hrec & Hhash).
  split; [exact Hres|]. split; [now rewrite Hsess|].
  split; [exists record; rewrite Hsess; now split|].
  intros Hh' Hany r'.
  assert (Hfind : first_file_metadata (pending (session_after r)) (file_path cls)
                  = Some record) by (rewrite Hsess; exact Hrec).
  rewrite <- Hhash in Hh'.
  destruct (run_skips_unchanged str_as_int cls env' (session_after r) fc' record
              Hfind Hh' Hany) as (Hr' & _ & Hs').
  split; [exact Hr'|]. split; [exact Hs'|].
  intros data Hin. subst r'.
  rewrite run_weight_importer_unfold in Hin. cbn [calls] in Hin.
  rewrite Hany in Hin. cbn [orb] in Hin.
  destruct (reconcile_unchanged cls env' _ _ _ Hfind) as [Hc' _].
  unfold import_calls, reconcile_calls, load_calls in Hin.
  rewrite Hh', Hfind, Hc' in Hin.
  destruct (safe_load env' (file_path cls)); cbn in Hin;
    repeat destruct Hin as [Hin|Hin]; try discriminate Hin; destruct Hin.
Qed.

(** * The further properties on the sample data *)

Lemma validate_data_returns_wellformed_entries_witness :
  validate_data no_str_as_int ex_input (mkWorld (new_importer ex_fresh) [])
  = (Returned ex_validated, mkWorld (new_importer ex_fresh) [ModelValidate ex_input]) /\
  exists l,
    ex_input = YSeq l /\
    List.length ex_validated = List.length l /\
    Forall (fun d => 0 <= SlugWeight.weight d) ex_validated.
Proof.
  assert (H : validate_data no_str_as_int ex_input (mkWorld (new_importer ex_fresh) [])
              = (Returned ex_validated,
                 mkWorld (new_importer ex_fresh) [ModelValidate ex_input]))
    by reflexivity.
  split; [exact H|].
  destruct (validate_data_returns_wellformed_entries _ _ _ _ _ H)
    as (_ & l & Hl & Hlen & Hpos & _).
  exists l. split; [exact Hl|]. split; [exact Hlen | exact Hpos].
Defined.

Lemma no_negative_weight_is_written_witness :
  In (ExecuteUpdate Items [Mapping.mk 1 5; Mapping.mk 2 3; Mapping.mk 3 0])
     (calls ex_first_run) /\
  Forall (fun m => 0 <= Mapping.weight m) [Mapping.mk 1 5; Mapping.mk 2 3; Mapping.mk 3 0].
Proof.
  unfold ex_first_run.
  assert (H : In (ExecuteUpdate Items [Mapping.mk 1 5; Mapping.mk 2 3; Mapping.mk 3 0])
                 (calls (run_weight_importer no_str_as_int ex_cls ex_env ex_fresh false [])))
    by (cbn; do 9 right; left; reflexivity).
  split; [exact H|].
  exact (no_negative_weight_is_written _ _ _ _ _ _ _ _ H).
Defined.

Lemma imports_keep_weights_nonnegative_witness :
  nonneg_weights (committed ex_fresh) /\
  nonneg_weights (pending ex_fresh) /\
  nonneg_weights (committed (session_after ex_first_run)) /\
  nonneg_weights (pending (session_after ex_first_run)).
Proof.
  unfold ex_first_run.
  assert (H : nonneg_weights ex_fresh_db).
  { intros t row Hrow. destruct t; cbn in Hrow;
      repeat destruct Hrow as [<-|Hrow]; cbn; try lia; destruct Hrow. }
  split; [exact H|]. split; [exact H|].
  exact (imports_keep_weights_nonnegative no_str_as_int ex_cls ex_env ex_fresh false []
           H H).
Defined.

(** An empty file over the tracked store: the import raises. *)
Lemma non_sequence_document_aborts_witness :
  safe_load ex_empty_file_env (file_path ex_cls) = Loaded YNull /\
  (forall l, YNull <> YSeq l) /\
  get_file_hash ex_empty_file_env (file_path ex_cls) = Some "h3"%string /\
  reconcile_changed (pending ex_tracked) (file_path ex_cls) "h3" (false || any []) = true /\
  result (run_weight_importer no_str_as_int ex_cls ex_empty_file_env ex_tracked false [])
  = Raised ValidationError /\
  issues_update
    (calls (run_weight_importer no_str_as_int ex_cls ex_empty_file_env ex_tracked false []))
  = false.
Proof.
  assert (H1 : safe_load ex_empty_file_env (file_path ex_cls) = Loaded YNull)
    by reflexivity.
  assert (H2 : forall l, YNull <> YSeq l) by discriminate.
  assert (H3 : get_file_hash ex_empty_file_env (file_path ex_cls) = Some "h3"%string)
    by reflexivity.
  assert (H4 : reconcile_changed (pending ex_tracked) (file_path ex_cls) "h3"
                                 (false || any []) = true) by reflexivity.
  split; [exact H1|]. split; [exact H2|]. split; [exact H3|]. split; [exact H4|].
  destruct (non_sequence_document_aborts no_str_as_int ex_cls ex_empty_file_env ex_tracked
              false [] _ _ H1 H2 H3 H4) as (Hr & _ & Hu & _).
  split; [exact Hr | exact Hu].
Defined.

Lemma unhashable_file_aborts_untouched_witness :
  get_file_hash ex_missing_file_env (file_path ex_cls) = None /\
  result (run_weight_importer no_str_as_int ex_cls ex_missing_file_env ex_tracked true [])
  = Raised FileHashError /\
  session_after
    (run_weight_importer no_str_as_int ex_cls ex_missing_file_env ex_tracked true [])
  = ex_tracked.
Proof.
  assert (H : get_file_hash ex_missing_file_env (file_path ex_cls) = None) by reflexivity.
  split; [exact H|].
  destruct (unhashable_file_aborts_untouched no_str_as_int ex_cls ex_missing_file_env
              ex_tracked true [] H) as (Hr & Hs & _).
  split; [exact Hr | exact Hs].
Defined.

(** A changed file over the tracked store: the record takes the new hash. *)
Lemma reconcile_stores_current_hash_witness :
  get_file_hash ex_negative_env "weights.yaml" = Some "h2"%string /\
  exists w' r,
    handle_file_metadata ex_cls ex_negative_env "weights.yaml" false
                         (mkWorld (new_importer ex_tracked) [])
    = (Returned tt, w') /\
    first_file_metadata (pending (session_of w')) "weights.yaml" = Some r /\
    file_metadata (self w') = Some r /\
    FileMetadata.hash r = "h2"%string.
Proof.
  assert (H : get_file_hash ex_negative_env "weights.yaml" = Some "h2"%string)
    by reflexivity.
  split; [exact H|].
  destruct (reconcile_stores_current_hash ex_cls ex_negative_env "weights.yaml"%string
              false (mkWorld (new_importer ex_tracked) []) _ H)
    as (w' & r & Hrun & Hfind & Hattr & _ & Hhash).
  exists w', r. split; [exact Hrun|]. split; [exact Hfind|]. split; [exact Hattr | exact Hhash].
Defined.

Lemma reconcile_leaves_the_rest_alone_witness :
  "weights.yaml"%string <> "other.yaml"%string /\
  file_updated (self (mkWorld (set_file_updated true (new_importer ex_tracked)) [])) = true /\
  first_file_metadata
    (pending (session_of
       (snd (handle_file_metadata ex_cls ex_negative_env "other.yaml" false
               (mkWorld (set_file_updated true (new_importer ex_tracked)) [])))))
    "weights.yaml"
  = Some (FileMetadata.mk "weights.yaml" "h1" 50) /\
  file_updated
    (self (snd (handle_file_metadata ex_cls ex_negative_env "other.yaml" false
                  (mkWorld (set_file_updated true (new_importer ex_tracked)) []))))
  = true.
Proof.
  assert (H1 : "weights.yaml"%string <> "other.yaml"%string) by discriminate.
  assert (H2 : file_updated
                 (self (mkWorld (set_file_updated true (new_importer ex_tracked)) []))
               = true) by reflexivity.
  split; [exact H1|]. split; [exact H2|].
  destruct (reconcile_leaves_the_rest_alone ex_cls ex_negative_env "other.yaml"%string false
              (mkWorld (set_file_updated true (new_importer ex_tracked)) []))
    as (Hother & _ & _ & _ & Hsticky).
  split; [|exact (Hsticky H2)].
  rewrite (Hother _ H1). reflexivity.
Defined.

(** Two imports on the same importer instance, the file unchanged in
    between: the second, unforced, issues the bulk update again. *)
Lemma file_updated_is_sticky_witness :
  file_updated (self ex_importer_after_first_import) = true /\
  reconcile_changed (pending (session_of ex_importer_after_first_import))
                    (file_path ex_cls) "h1" false = false /\
  get_file_hash ex_env (file_path ex_cls) = Some "h1"%string /\
  SlugWeights_model_validate no_str_as_int (loaded_data ex_env (file_path ex_cls))
  = Some ex_validated /\
  exists w2,
    import_data no_str_as_int ex_cls ex_env false ex_importer_after_first_import
    = (Returned tt, w2) /\
    List.length (filter is_update (trace w2)) = 2%nat.
Proof.
  unfold ex_importer_after_first_import.
  set (w1 := snd (import_data no_str_as_int ex_cls ex_env false
                              (mkWorld (new_importer ex_fresh) []))).
  assert (H1 : file_updated (self w1) = true) by reflexivity.
  assert (H2 : reconcile_changed (pending (session_of w1)) (file_path ex_cls) "h1" false
               = false) by reflexivity.
  assert (H3 : get_file_hash ex_env (file_path ex_cls) = Some "h1"%string) by reflexivity.
  assert (H4 : SlugWeights_model_validate no_str_as_int
                 (loaded_data ex_env (file_path ex_cls)) = Some ex_validated)
    by reflexivity.
  split; [exact H1|]. split; [exact H2|]. split; [exact H3|]. split; [exact H4|].
  destruct (file_updated_is_sticky no_str_as_int ex_cls ex_env w1 _ _ H1 H3 H4)
    as (w2 & Hrun & _).
  exists w2. split; [exact Hrun|].
  assert (E : w2 = snd (import_data no_str_as_int ex_cls ex_env false w1))
    by now rewrite Hrun.
  rewrite E. reflexivity.
Defined.

(** Only row 1 is loaded: row 3 stays as it was, and so does the other
    table. *)
Lemma process_data_only_rewrites_named_weights_witness :
  nth_error (rows (pending (session_of (ex_world ex_fresh))) (update_class ex_cls)) 2
  = Some (Entity.mk 3 "c" 9 0) /\
  ~ In 3 (map (key ex_cls) [Entity.mk 1 "a" 9 0]) /\
  Parents <> update_class ex_cls /\
  nth_error
    (rows (pending (session_of
       (snd (process_data ex_cls [Entity.mk 1 "a" 9 0] ex_validated (ex_world ex_fresh)))))
          (update_class ex_cls)) 2
  = Some (Entity.mk 3 "c" 9 0) /\
  rows (pending (session_of
     (snd (process_data ex_cls [Entity.mk 1 "a" 9 0] ex_validated (ex_world ex_fresh)))))
       Parents
  = rows (pending (session_of (ex_world ex_fresh))) Parents.
Proof.
  assert (H1 : nth_error (rows (pending (session_of (ex_world ex_fresh)))
                               (update_class ex_cls)) 2
               = Some (Entity.mk 3 "c" 9 0)) by reflexivity.
  assert (H2 : ~ In (Entity.id (Entity.mk 3 "c" 9 0))
                    (map (key ex_cls) [Entity.mk 1 "a" 9 0]))
    by (cbn; intros [H|[]]; discriminate H).
  assert (H3 : Parents <> update_class ex_cls) by discriminate.
  split; [exact H1|]. split; [exact H2|]. split; [exact H3|].
  destruct (process_data_only_rewrites_named_weights
              ex_cls [Entity.mk 1 "a" 9 0] ex_validated (ex_world ex_fresh))
    as (_ & _ & _ & Hkeep & Hother & _).
  split; [exact (Hkeep _ _ H1 H2) | exact (Hother _ H3)].
Defined.

(** Two rows of parent 7: row "a" matches weight 5, row "b" matches
    nothing and comes last, so the parent ends with weight 0. *)
Lemma last_row_with_key_wins_witness :
  (forall item', In item' [] -> key ex_parent_cls item' <> key ex_parent_cls (Entity.mk 2 "b" 0 7)) /\
  In (Entity.mk 7 "doc" 0 0)
     (rows (pending (session_of
        (snd (process_data ex_parent_cls ([Entity.mk 1 "a" 0 7] ++ Entity.mk 2 "b" 0 7 :: [])
                           [SlugWeight.mk "a" 5] (ex_world ex_parent_session)))))
           (update_class ex_parent_cls)) /\
  Entity.id (Entity.mk 7 "doc" 0 0) = key ex_parent_cls (Entity.mk 2 "b" 0 7) /\
  Mapping.weight (mapping_of ex_parent_cls [SlugWeight.mk "a" 5] (Entity.mk 1 "a" 0 7)) = 5 /\
  Entity.weight (Entity.mk 7 "doc" 0 0)
  = Mapping.weight (mapping_of ex_parent_cls [SlugWeight.mk "a" 5] (Entity.mk 2 "b" 0 7)).
Proof.
  assert (H1 : forall item', In item' [] ->
                             key ex_parent_cls item' <> key ex_parent_cls (Entity.mk 2 "b" 0 7))
    by (intros item' []).
  assert (H2 : In (Entity.mk 7 "doc" 0 0)
                  (rows (pending (session_of
                     (snd (process_data ex_parent_cls
                             ([Entity.mk 1 "a" 0 7] ++ Entity.mk 2 "b" 0 7 :: [])
                             [SlugWeight.mk "a" 5] (ex_world ex_parent_session)))))
                        (update_class ex_parent_cls)))
    by (cbn; left; reflexivity).
  assert (H3 : Entity.id (Entity.mk 7 "doc" 0 0) = key ex_parent_cls (Entity.mk 2 "b" 0 7))
    by reflexivity.
  split; [exact H1|]. split; [exact H2|]. split; [exact H3|]. split; [reflexivity|].
  exact (last_row_with_key_wins ex_parent_cls _ _ _ _ _ _ H1 H2 H3).
Defined.

Lemma apply_rewrites_each_row_witness :
  parent_model ex_cls = None /\
  NoDup (map Entity.id (rows (pending (session_of (ex_world ex_fresh))) (model ex_cls))) /\
  rows (pending (session_of
     (snd (process_data ex_cls (loaded_items ex_cls (pending (session_of (ex_world ex_fresh))))
                        ex_validated (ex_world ex_fresh)))))
       (model ex_cls)
  = [Entity.mk 1 "a" 5 0; Entity.mk 2 "b" 3 0; Entity.mk 3 "c" 0 0].
Proof.
  assert (H1 : parent_model ex_cls = None) by reflexivity.
  assert (H2 : NoDup (map Entity.id
                          (rows (pending (session_of (ex_world ex_fresh))) (model ex_cls)))).
  { cbn. repeat constructor; cbn; intros H; repeat destruct H as [H|H];
      try discriminate H; exact H. }
  split; [exact H1|]. split; [exact H2|].
  rewrite (apply_rewrites_each_row ex_cls ex_validated (ex_world ex_fresh) H1 H2).
  reflexivity.
Defined.

Lemma returning_false_means_untouched_witness :
  result ex_skipped_run = Returned false /\
  session_after ex_skipped_run = ex_tracked /\
  attempts_commit (calls ex_skipped_run) = false.
Proof.
  unfold ex_skipped_run.
  assert (H : result (run_weight_importer no_str_as_int ex_cls ex_env ex_tracked false [])
              = Returned false) by reflexivity.
  split; [exact H|].
  destruct (returning_false_means_untouched no_str_as_int ex_cls ex_env ex_tracked false []
              H) as (Hs & _ & _ & Hc & _).
  split; [exact Hs | exact Hc].
Defined.

Lemma returning_true_means_applied_witness :
  result ex_first_run = Returned true /\
  commit_error ex_env = None /\
  committed (session_after ex_first_run) = pending (session_after ex_first_run) /\
  exists validated,
    rows (committed (session_after ex_first_run)) (update_class ex_cls)
    = bulk_update (build_mappings ex_cls (loaded_items ex_cls (pending ex_fresh)) validated)
                  (rows (pending ex_fresh) (update_class ex_cls)).
Proof.
  unfold ex_first_run.
  assert (H1 : result (run_weight_importer no_str_as_int ex_cls ex_env ex_fresh false [])
               = Returned true) by reflexivity.
  assert (H2 : commit_error ex_env = None) by reflexivity.
  split; [exact H1|]. split; [exact H2|].
  destruct (returning_true_means_applied no_str_as_int ex_cls ex_env ex_fresh false [] H1)
    as (_ & _ & Hclean & validated & _ & Hrows & _).
  split; [exact Hclean|]. exists validated. exact (Hrows H2).
Defined.

(** The import of the negative weight raises and prints no [DONE]; the
    first import on the fresh store returns and ends with [DONE]. *)
Lemma done_is_printed_iff_returned_witness :
  result ex_first_run = Returned true /\
  In (Print DONE) (calls ex_first_run) /\
  (exists before, calls ex_first_run = before ++ [Print DONE]) /\
  ~ (exists b, result ex_negative_run = Returned b) /\
  ~ In (Print DONE) (calls ex_negative_run).
Proof.
  unfold ex_first_run, ex_negative_run.
  assert (H1 : result (run_weight_importer no_str_as_int ex_cls ex_env ex_fresh false [])
               = Returned true) by reflexivity.
  assert (H2 : ~ (exists b,
                     result (run_weight_importer no_str_as_int ex_cls ex_negative_env
                                                 ex_tracked false []) = Returned b))
    by (intros [b Hb]; discriminate Hb).
  destruct (done_is_printed_iff_returned no_str_as_int ex_cls ex_env ex_fresh false [])
    as (_ & Hiff & Hlast).
  destruct (done_is_printed_iff_returned no_str_as_int ex_cls ex_negative_env ex_tracked
              false []) as (_ & Hiff' & _).
  split; [exact H1|].
  split; [exact (proj2 Hiff (ex_intro _ true H1))|].
  split; [exact (Hlast _ H1)|].
  split; [exact H2|].
  intros Hin. exact (H2 (proj1 Hiff' Hin)).
Defined.

(** The file with the negative weight over the tracked store: the first
    call raises, the second, on the same session, is skipped. *)
Lemma validation_failure_keeps_fingerprint_witness :
  get_file_hash ex_negative_env (file_path ex_cls) = Some "h2"%string /\
  reconcile_changed (pending ex_tracked) (file_path ex_cls) "h2" (false || any []) = true /\
  SlugWeights_model_validate no_str_as_int (loaded_data ex_negative_env (file_path ex_cls))
  = None /\
  any [] = false /\
  result ex_negative_run = Raised ValidationError /\
  committed (session_after ex_negative_run) = committed ex_tracked /\
  result (run_weight_importer no_str_as_int ex_cls ex_negative_env
                              (session_after ex_negative_run) false [])
  = Returned false.
Proof.
  unfold ex_negative_run.
  assert (H1 : get_file_hash ex_negative_env (file_path ex_cls) = Some "h2"%string)
    by reflexivity.
  assert (H2 : reconcile_changed (pending ex_tracked) (file_path ex_cls) "h2"
                                 (false || any []) = true) by reflexivity.
  assert (H3 : SlugWeights_model_validate no_str_as_int
                 (loaded_data ex_negative_env (file_path ex_cls)) = None) by reflexivity.
  assert (H4 : any [] = false) by reflexivity.
  split; [exact H1|]. split; [exact H2|]. split; [exact H3|]. split; [exact H4|].
  destruct (validation_failure_keeps_fingerprint no_str_as_int ex_cls ex_negative_env
              ex_negative_env ex_tracked false [] [] _ H1 H2 H3)
    as (Hr & Hc & _ & Hnext).
  split; [exact Hr|]. split; [exact Hc|].
  exact (proj1 (Hnext H1 H4)).
Defined.

(** ** The order of the entries in the file *)

Lemma matching_data_iff validated item d :
  NoDup (map SlugWeight.slug validated) ->
  (matching_data validated item = Some d <->
   In d validated /\ SlugWeight.slug d = Entity.slug item).
Proof.
  intros Hnd. unfold matching_data. split.
  - intros Hfind. apply find_some in Hfind. destruct Hfind as [Hin Heq].
    split; [exact Hin | now apply String.eqb_eq].
  - intros [Hin Hslug].
    induction validated as [|d0 l IH]; [destruct Hin|].
    cbn in Hnd. inversion Hnd as [|? ? Hfresh Hnd']; subst. cbn.
    destruct (String.eqb_spec (SlugWeight.slug d0) (Entity.slug item)) as [E|NE].
    + destruct Hin as [->|Hin]; [reflexivity|].
      exfalso. apply Hfresh. rewrite E, <- Hslug. now apply in_map.
    + destruct Hin as [->|Hin]; [contradiction|]. now apply IH.
Qed.

Lemma matching_data_same_entries validated validated' item :
  NoDup (map SlugWeight.slug validated) ->
  NoDup (map SlugWeight.slug validated') ->
  (forall d, In d validated <-> In d validated') ->
  matching_data validated item = matching_data validated' item.
Proof.
  intros Hnd Hnd' Hsame.
  destruct (matching_data validated item) as [d|] eqn:Hd.
  - symmetry. apply matching_data_iff; [exact Hnd'|].
    apply matching_data_iff in Hd; [|exact Hnd]. destruct Hd as [Hin Hslug].
    split; [now apply Hsame | exact Hslug].
  - destruct (matching_data validated' item) as [d'|] eqn:Hd'; [|reflexivity].
    apply matching_data_iff in Hd'; [|exact Hnd']. destruct Hd' as [Hin Hslug].
    assert (Hfound : matching_data validated item = Some d')
      by (apply matching_data_iff; [exact Hnd | split; [now apply Hsame | exact Hslug]]).
    rewrite Hfound in Hd. discriminate Hd.
Qed.

(** X18. When no slug occurs twice in the validated data, the order of the
    entries does not matter: two inputs with the same entries, in any
    order, make [process_data] issue the same update and leave the same
    store. *)
Theorem entry_order_is_irrelevant_for_distinct_slugs :
  forall cls items validated validated' w,
    NoDup (map SlugWeight.slug validated) ->
    NoDup (map SlugWeight.slug validated') ->
    (forall d, In d validated <-> In d validated') ->
    process_data cls items validated w = process_data cls items validated' w.
Proof.
  intros cls items validated validated' w Hnd Hnd' Hsame.
  assert (E : build_mappings cls items validated = build_mappings cls items validated').
  { rewrite !build_mappings_map. apply map_ext. intros item.
    unfold mapping_of. now rewrite (matching_data_same_entries _ _ item Hnd Hnd' Hsame). }
  unfold process_data. now rewrite E.
Qed.

Lemma entry_order_is_irrelevant_for_distinct_slugs_witness :
  NoDup (map SlugWeight.slug [SlugWeight.mk "a" 5; SlugWeight.mk "b" 3]) /\
  NoDup (map SlugWeight.slug [SlugWeight.mk "b" 3; SlugWeight.mk "a" 5]) /\
  (forall d, In d [SlugWeight.mk "a" 5; SlugWeight.mk "b" 3]
             <-> In d [SlugWeight.mk "b" 3; SlugWeight.mk "a" 5]) /\
  process_data ex_cls ex_rows [SlugWeight.mk "a" 5; SlugWeight.mk "b" 3] (ex_world ex_fresh)
  = process_data ex_cls ex_rows [SlugWeight.mk "b" 3; SlugWeight.mk "a" 5]
                 (ex_world ex_fresh).
Proof.
  assert (H1 : NoDup (map SlugWeight.slug [SlugWeight.mk "a" 5; SlugWeight.mk "b" 3])).
  { cbn. repeat constructor; cbn; intros H; repeat destruct H as [H|H];
      try discriminate H; exact H. }
  assert (H2 : NoDup (map SlugWeight.slug [SlugWeight.mk "b" 3; SlugWeight.mk "a" 5])).
  { cbn. repeat constructor; cbn; intros H; repeat destruct H as [H|H];
      try discriminate H; exact H. }
  assert (H3 : forall d, In d [SlugWeight.mk "a" 5; SlugWeight.mk "b" 3]
                         <-> In d [SlugWeight.mk "b" 3; SlugWeight.mk "a" 5])
    by (intros d; cbn; tauto).
  split; [exact H1|]. split; [exact H2|]. split; [exact H3|].
  exact (entry_order_is_irrelevant_for_distinct_slugs ex_cls ex_rows _ _ _ H1 H2 H3).
Defined.
